(** * stratus: a package-level database handle (db.go)

    A shallow embedding of [src/db.go].  The package keeps one variable,
    [db *gorm.DB], written by [Connect] and read by [GetInstance]; the two
    exported options [WithMaxConnections] and [WithMaxIdleConnections] are
    closures over the pool setters of [database/sql].

    Everything the file imports ([os], [strings], [database/sql], [gorm],
    the cloud-sql connector) lies outside the repository.  Those calls are
    taken as the fields of a record [Library]; the theorems below hold for
    all libraries, and where a statement is about what the pool of
    [database/sql] stores, its two setters are written out. *)

From Stdlib Require Import List String Ascii ZArith NArith Bool Lia.
From Stdlib Require Import Sorted.
Import ListNotations.
Open Scope string_scope.

(* ================================================================= *)
(** ** Go values used by the package *)

(** Go's [error] interface, as far as [db.go] builds and inspects it: a
    message, and for [fmt.Errorf] with the verb [%w] the wrapped error.  A nil
    [error] is [None] in [option error]. *)
Inductive error : Type :=
| errorString (s : string)
| wrapError (msg : string) (err : error).

Definition Error (e : error) : string :=
  match e with
  | errorString s => s
  | wrapError msg _ => msg
  end.

Definition Unwrap (e : error) : option error :=
  match e with
  | errorString _ => None
  | wrapError _ err => Some err
  end.

(** [errors.New(text)]. *)
Definition errors_New (text : string) : error := errorString text.

(** [fmt.Errorf(prefix + "%v", err)]: the message only. *)
Definition fmt_Errorf_v (prefix : string) (err : error) : error :=
  errorString (prefix ++ Error err).

(** [fmt.Errorf(prefix + "%w", err)]: the message, and [err] kept for
    [errors.Unwrap]. *)
Definition fmt_Errorf_w (prefix : string) (err : error) : error :=
  wrapError (prefix ++ Error err) err.

(** How a Go call ends: it returns, or it panics with a value. *)
Inductive outcome (A : Type) : Type :=
| Return (a : A)
| Panicked (v : string).
Arguments Return {A} a.
Arguments Panicked {A} v.

(** The panic of the runtime on a nil pointer or nil func value. *)
Definition nil_dereference : string :=
  "runtime error: invalid memory address or nil pointer dereference".

(** State passing with panics; the state at the point of the panic is kept. *)
Definition M (S A : Type) : Type := S -> outcome A * S.

Definition ret {S A : Type} (a : A) : M S A := fun s => (Return a, s).

Definition bind {S A B : Type} (m : M S A) (k : A -> M S B) : M S B :=
  fun s =>
    match m s with
    | (Return a, s') => k a s'
    | (Panicked v, s') => (Panicked v, s')
    end.

Definition panic {S A : Type} (v : string) : M S A := fun s => (Panicked v, s).

Declare Scope go_scope.
Delimit Scope go_scope with go.
Notation "x <- m ;; k" := (bind m (fun x => k))
  (at level 100, m at next level, right associativity) : go_scope.
Notation "' p <- m ;; k" := (bind m (fun x => match x with p => k end))
  (at level 100, p pattern, m at next level, right associativity) : go_scope.
Open Scope go_scope.

(* ================================================================= *)
(** ** strings.ToLower *)

Module strings.

(** [c >= utf8.RuneSelf] fails, with [RuneSelf = 0x80]. *)
Definition isASCIIbyte (c : ascii) : bool := (N_of_ascii c <? 128)%N.

(** ['A' <= c && c <= 'Z']. *)
Definition isUpper (c : ascii) : bool :=
  ((65 <=? N_of_ascii c) && (N_of_ascii c <=? 90))%N.

(** [c += 'a' - 'A'] for an upper-case byte. *)
Definition lowerByte (c : ascii) : ascii :=
  if isUpper c then ascii_of_N (N_of_ascii c + 32) else c.

Fixpoint isASCII (s : string) : bool :=
  match s with
  | EmptyString => true
  | String c r => isASCIIbyte c && isASCII r
  end.

Fixpoint hasUpper (s : string) : bool :=
  match s with
  | EmptyString => false
  | String c r => isUpper c || hasUpper r
  end.

Fixpoint lowerASCII (s : string) : string :=
  match s with
  | EmptyString => EmptyString
  | String c r => String (lowerByte c) (lowerASCII r)
  end.

(** [strings.ToLower]: on a string of ASCII bytes the standard library lowers
    the bytes ['A'..'Z'] and leaves the rest (and returns the string itself
    when it has no upper-case byte); any other string goes through
    [strings.Map(unicode.ToLower, s)], which needs the Unicode tables and is
    the parameter [mapUnicode]. *)
Definition ToLower (mapUnicode : string -> string) (s : string) : string :=
  if isASCII s then
    if hasUpper s then lowerASCII s else s
  else mapUnicode s.

End strings.

(* ================================================================= *)
(** ** The libraries behind the package *)

(** [cloudsqlconn.Option], as far as [Connect] builds them. *)
Inductive cloudsqlconn_Option : Type :=
| WithIAMAuthN
| WithCredentialsFile (filename : string).

(** The logger handed to gorm (lines 33-41). *)
Inductive logger_LogLevel : Type := Silent | LogError | Warn | Info.

Record logger_Config : Type := {
  SlowThreshold : Z;                  (* nanoseconds *)
  LogLevel : logger_LogLevel;
  IgnoreRecordNotFoundError : bool;
  Colorful : bool
}.

Inductive os_File : Type := Stdout.

(** [log.New(out, prefix, flag)]. *)
Record log_Logger : Type := {
  log_out : os_File;
  log_prefix : string;
  log_flag : Z
}.

(** [logger.New(writer, config)]. *)
Record logger_Interface : Type := {
  logger_writer : log_Logger;
  logger_config : logger_Config
}.

Record gorm_Config : Type := { Logger : logger_Interface }.

Definition time_Second : Z := 1000000000.
Definition log_LstdFlags : Z := 3.   (* Ldate | Ltime *)

(** [postgres.Config{Conn: sdb}] and the two dialector constructors. *)
Inductive Dialector (SqlDB : Type) : Type :=
| postgres_Open (dsn : string)
| postgres_New (Conn : option SqlDB).
Arguments postgres_Open {SqlDB} dsn.
Arguments postgres_New {SqlDB} Conn.

(** What lies outside the repository.  [World] is the state the libraries
    act on (file system, driver registry, connection pools, whatever the
    caller's options touch); [GormDB] and [SqlDB] are what a non-nil [*gorm.DB]
    and [*sql.DB] point to.  A library call may panic ([sql.Register] does for
    a name registered twice).  The results [Connect] discards (the [FileInfo]
    of [os.Stat], the cleanup func of [RegisterDriver]) are left out. *)
Record Library : Type := {
  World : Type;
  GormDB : Type;
  SqlDB : Type;
  lib_MapToLower : string -> string;
  lib_Stat : string -> M World (option error);
  lib_RegisterDriver :
    string -> list cloudsqlconn_Option -> M World (option error);
  lib_sqlOpen : string -> string -> M World (option SqlDB * option error);
  lib_gormOpen :
    Dialector SqlDB -> gorm_Config -> M World (option GormDB * option error);
  lib_DB : GormDB -> M World (option SqlDB * option error);
  lib_SetMaxOpenConns : SqlDB -> Z -> World -> World;
  lib_SetMaxIdleConns : SqlDB -> Z -> World -> World
}.

Section Stratus.

Variable L : Library.

(** A library call made by [Connect], with what it gave back. *)
Inductive Event : Type :=
| EvStat (name : string) (r : outcome (option error))
| EvRegisterDriver (name : string) (opts : list cloudsqlconn_Option)
    (r : outcome (option error))
| EvSqlOpen (driverName dsn : string)
    (r : outcome (option (SqlDB L) * option error))
| EvGormOpen (d : Dialector (SqlDB L)) (c : gorm_Config)
    (r : outcome (option (GormDB L) * option error))
| EvDB (h : GormDB L) (r : outcome (option (SqlDB L) * option error)).

(** The state of the process: the package variable [db] (line 26), the
    world of the libraries, and the record of the library calls [Connect]
    has made (a ghost field: nothing reads it). *)
Record State : Type := {
  db : option (GormDB L);
  world : World L;
  calls : list Event
}.

(** A library call from [Connect]: run it on the world and record it. *)
Definition extern {A : Type} (f : M (World L) A) (ev : outcome A -> Event)
  : M State A :=
  fun s =>
    let (r, w) := f (world s) in
    (r, {| db := db s; world := w; calls := (calls s ++ [ev r])%list |}).

(** Code that cannot name the package variable runs on the world alone. *)
Definition outside {A : Type} (f : M (World L) A) : M State A :=
  fun s =>
    let (r, w) := f (world s) in
    (r, {| db := db s; world := w; calls := calls s |}).

Definition get_db : M State (option (GormDB L)) :=
  fun s => (Return (db s), s).

Definition set_db (h : option (GormDB L)) : M State unit :=
  fun s => (Return tt, {| db := h; world := world s; calls := calls s |}).

Definition strings_ToLower (s : string) : string :=
  strings.ToLower (lib_MapToLower L) s.

Definition os_Stat (name : string) : M State (option error) :=
  extern (lib_Stat L name) (EvStat name).

Definition pgxv5_RegisterDriver (name : string)
    (opts : list cloudsqlconn_Option) : M State (option error) :=
  extern (lib_RegisterDriver L name opts) (EvRegisterDriver name opts).

Definition sql_Open (driverName dsn : string)
  : M State (option (SqlDB L) * option error) :=
  extern (lib_sqlOpen L driverName dsn) (EvSqlOpen driverName dsn).

Definition gorm_Open (d : Dialector (SqlDB L)) (c : gorm_Config)
  : M State (option (GormDB L) * option error) :=
  extern (lib_gormOpen L d c) (EvGormOpen d c).

(** The method [DB] of [*gorm.DB]: it reads a field of its receiver first, so
    a nil receiver panics. *)
Definition gormDB_DB (recv : option (GormDB L))
  : M State (option (SqlDB L) * option error) :=
  match recv with
  | None => panic nil_dereference
  | Some h => extern (lib_DB L h) (EvDB h)
  end.

(** The setters [SetMaxOpenConns] and [SetMaxIdleConns] of [*sql.DB]: they
    lock the mutex of the receiver first, so a nil receiver panics; they
    return nothing. *)
Definition SetMaxOpenConns (recv : option (SqlDB L)) (n : Z)
  : M (World L) unit :=
  match recv with
  | None => panic nil_dereference
  | Some d => fun w => (Return tt, lib_SetMaxOpenConns L d n w)
  end.

Definition SetMaxIdleConns (recv : option (SqlDB L)) (n : Z)
  : M (World L) unit :=
  match recv with
  | None => panic nil_dereference
  | Some d => fun w => (Return tt, lib_SetMaxIdleConns L d n w)
  end.

(* =============================================================== *)
(** ** The package *)

(** The type of an option, a func from [*sql.DB] to [error]: a func value is nil or a closure.  A closure
    handed to [Connect] comes from outside the package and cannot assign
    the unexported [db]; it acts on the world.  (A closure that calls
    [Connect] again is not covered.) *)
Definition DBOption : Type :=
  option (option (SqlDB L) -> M (World L) (option error)).

(** Calling a func value. *)
Definition call (opt : DBOption) (sdb : option (SqlDB L))
  : M (World L) (option error) :=
  match opt with
  | None => panic nil_dereference
  | Some f => f sdb
  end.

(** Lines 33-41. *)
Definition cfg : gorm_Config :=
  {| Logger :=
       {| logger_writer :=
            {| log_out := Stdout;
               log_prefix := String "013" (String "010" EmptyString);
               log_flag := log_LstdFlags |};
          logger_config :=
            {| SlowThreshold := time_Second;
               LogLevel := LogError;
               IgnoreRecordNotFoundError := true;
               Colorful := false |} |} |}.

(** Lines 87-93: the loop over [opts], then [return nil]. *)
Fixpoint apply_opts (opts : list DBOption) (sdb : option (SqlDB L))
  : M (World L) (option error) :=
  match opts with
  | [] => ret None
  | opt :: rest =>
      err <- call opt sdb ;;
      match err with
      | Some e => ret (Some (fmt_Errorf_w "db opts failure: " e))
      | None => apply_opts rest sdb
      end
  end.

(** Lines 82-93, where every path through the switch that does not return
    arrives. *)
Definition support_db_options (opts : list DBOption)
  : M State (option error) :=
  recv <- get_db ;;
  '(sdb, err) <- gormDB_DB recv ;;
  match err with
  | Some e =>
      ret (Some (fmt_Errorf_w "unable to fetch *sql.DB from *gorm.DB: " e))
  | None => outside (apply_opts opts sdb)
  end.

Definition authFile : string := "/etc/sql/auth.json".

(** Lines 32-94.  A [return] inside the switch is an arm that ends in
    [ret]; the other arms go on to [support_db_options]. *)
Definition Connect (driver dsn : string) (opts : list DBOption)
  : M State (option error) :=
  let driver := strings_ToLower driver in
  if driver =? "cloudsql-postgres" then
    let authOption := [WithIAMAuthN] in
    staterr <- os_Stat authFile ;;
    let authOption :=
      match staterr with
      | None => (authOption ++ [WithCredentialsFile authFile])%list
      | Some _ => authOption
      end in
    err <- pgxv5_RegisterDriver "cloudsql-postgres" authOption ;;
    match err with
    | Some e => ret (Some (fmt_Errorf_v "pgxv5.RegisterDriver(...): " e))
    | None =>
        '(sdb, err) <- sql_Open driver dsn ;;
        match err with
        | Some e => ret (Some (fmt_Errorf_v "sql.Open(...): " e))
        | None =>
            '(h, err) <- gorm_Open (postgres_New sdb) cfg ;;
            _ <- set_db h ;;
            match err with
            | Some e => ret (Some (fmt_Errorf_w "unable to open db: " e))
            | None => support_db_options opts
            end
        end
    end
  else if (driver =? "postgresql") || (driver =? "postgres") then
    '(h, err) <- gorm_Open (postgres_Open dsn) cfg ;;
    _ <- set_db h ;;
    match err with
    | Some e => ret (Some (fmt_Errorf_w "unable to open db: " e))
    | None => support_db_options opts
    end
  else
    ret (Some (errors_New ("unsupported database: " ++ driver))).

(** Lines 99-105. *)
Definition GetInstance : M State (option (GormDB L)) :=
  h <- get_db ;;
  match h with
  | None => panic "database accessed before initialized"
  | Some _ => ret h
  end.

(** Lines 109-114.  Go's [int] is passed on as it is; no arithmetic is done
    on it. *)
Definition WithMaxConnections (max : Z) : DBOption :=
  Some (fun db =>
          _ <- SetMaxOpenConns db max ;;
          ret None).

(** Lines 118-123. *)
Definition WithMaxIdleConnections (max : Z) : DBOption :=
  Some (fun db =>
          _ <- SetMaxIdleConns db max ;;
          ret None).

(** The words of the specification for the loop: the options of [pre] are
    called one after the other on [sdb], in the order of the list, each
    returns nil, and the world is then [w']. *)
Fixpoint succeed_in_order (pre : list DBOption) (sdb : option (SqlDB L))
    (w : World L) : option (World L) :=
  match pre with
  | [] => Some w
  | opt :: rest =>
      match call opt sdb w with
      | (Return None, w') => succeed_in_order rest sdb w'
      | _ => None
      end
  end.

End Stratus.

Arguments succeed_in_order {L} pre sdb w.

Arguments EvStat {L} name r.
Arguments EvRegisterDriver {L} name opts r.
Arguments EvSqlOpen {L} driverName dsn r.
Arguments EvGormOpen {L} d c r.
Arguments EvDB {L} h r.
Arguments db {L} s.
Arguments world {L} s.
Arguments calls {L} s.
Arguments Build_State {L} db world calls.

(* ================================================================= *)
(** ** Reading the record of calls *)

Definition panic_of {A : Type} (r : outcome A) : option string :=
  match r with
  | Return _ => None
  | Panicked v => Some v
  end.

(** The value a recorded library call panicked with, if it did. *)
Definition panicked {L : Library} (ev : Event L) : option string :=
  match ev with
  | EvStat _ r => panic_of r
  | EvRegisterDriver _ _ r => panic_of r
  | EvSqlOpen _ _ r => panic_of r
  | EvGormOpen _ _ r => panic_of r
  | EvDB _ r => panic_of r
  end.

(** The place of a library call in the body of [Connect]: [os.Stat]
    (line 52), [RegisterDriver] (56), [sql.Open] (64), [gorm.Open] (69 and
    74), [DB] (83). *)
Definition position {L : Library} (ev : Event L) : nat :=
  match ev with
  | EvStat _ _ => 0
  | EvRegisterDriver _ _ _ => 1
  | EvSqlOpen _ _ _ => 2
  | EvGormOpen _ _ _ => 3
  | EvDB _ _ => 4
  end.

(** What a call [ev], one of the calls [new] of a run of [Connect] on the
    connection string [dsn], hands to its library. *)
Definition hands_over {L : Library} (dsn : string) (new : list (Event L))
    (ev : Event L) : Prop :=
  match ev with
  | EvStat name _ => name = "/etc/sql/auth.json"
  | EvRegisterDriver name o _ =>
      name = "cloudsql-postgres" /\
      (o = [WithIAMAuthN] \/
       o = [WithIAMAuthN; WithCredentialsFile "/etc/sql/auth.json"])
  | EvSqlOpen name d _ => name = "cloudsql-postgres" /\ d = dsn
  | EvGormOpen d c _ =>
      c = cfg /\
      (d = postgres_Open dsn \/
       exists sdb,
         d = postgres_New sdb /\
         In (EvSqlOpen "cloudsql-postgres" dsn (Return (sdb, None))) new)
  | EvDB h _ =>
      exists d, In (EvGormOpen d cfg (Return (Some h, None))) new
  end.

(** The two options the package exports, as data. *)
Inductive PoolSetting : Type :=
| MaxOpen (n : Z)
| MaxIdle (n : Z).

Definition option_of (L : Library) (p : PoolSetting) : DBOption L :=
  match p with
  | MaxOpen n => WithMaxConnections L n
  | MaxIdle n => WithMaxIdleConnections L n
  end.

(** The setter call that stands behind a setting. *)
Definition set_pool (L : Library) (d : SqlDB L) (w : World L)
    (p : PoolSetting) : World L :=
  match p with
  | MaxOpen n => lib_SetMaxOpenConns L d n w
  | MaxIdle n => lib_SetMaxIdleConns L d n w
  end.

(* ================================================================= *)
(** ** A test double for the libraries

    A small library to run the package on: a file system that is a list of
    paths, a driver registry that refuses a second registration the way
    [sql.Register] does, handles numbered from a counter, pool settings kept
    per handle, and a journal for the options of a caller to write in. *)

Module Double.

Record machine : Type := {
  files : list string;
  drivers : list (string * list cloudsqlconn_Option);
  fresh : nat;
  maxOpen : list (nat * Z);
  maxIdle : list (nat * Z);
  journal : list string
}.

Definition registered (name : string) (w : machine) : bool :=
  existsb (fun d => fst d =? name) (drivers w).

Definition Stat (name : string) : M machine (option error) :=
  fun w =>
    (Return (if existsb (String.eqb name) (files w) then None
             else Some (errorString
                          ("stat " ++ name ++ ": no such file or directory"))),
     w).

Definition RegisterDriver (name : string) (opts : list cloudsqlconn_Option)
  : M machine (option error) :=
  fun w =>
    if registered name w then
      (Panicked ("sql: Register called twice for driver " ++ name), w)
    else
      (Return None,
       {| files := files w; drivers := (drivers w ++ [(name, opts)])%list;
          fresh := fresh w; maxOpen := maxOpen w; maxIdle := maxIdle w;
          journal := journal w |}).

Definition allocate (w : machine) : machine :=
  {| files := files w; drivers := drivers w; fresh := S (fresh w);
     maxOpen := maxOpen w; maxIdle := maxIdle w; journal := journal w |}.

Definition sqlOpen (driverName dsn : string)
  : M machine (option nat * option error) :=
  fun w =>
    if registered driverName w then (Return (Some (fresh w), None), allocate w)
    else (Return (None,
                  Some (errorString
                          ("sql: unknown driver " ++ driverName))), w).

(** An empty connection string fails the way gorm does when the dialector
    cannot initialise: the handle comes back together with the error. *)
Definition gormOpen (d : Dialector nat) (c : gorm_Config)
  : M machine (option nat * option error) :=
  fun w =>
    match d with
    | postgres_Open dsn =>
        if dsn =? "" then
          (Return (Some (fresh w),
                   Some (errorString "failed to connect")), allocate w)
        else (Return (Some (fresh w), None), allocate w)
    | postgres_New (Some p) => (Return (Some p, None), w)
    | postgres_New None =>
        (Return (Some (fresh w), Some (errorString "nil Conn")), allocate w)
    end.

Definition DB (h : nat) : M machine (option nat * option error) :=
  fun w => (Return (Some h, None), w).

Definition SetMaxOpenConns (d : nat) (n : Z) (w : machine) : machine :=
  {| files := files w; drivers := drivers w; fresh := fresh w;
     maxOpen := (d, n) :: maxOpen w; maxIdle := maxIdle w;
     journal := journal w |}.

Definition SetMaxIdleConns (d : nat) (n : Z) (w : machine) : machine :=
  {| files := files w; drivers := drivers w; fresh := fresh w;
     maxOpen := maxOpen w; maxIdle := (d, n) :: maxIdle w;
     journal := journal w |}.

Definition lib : Library :=
  {| World := machine; GormDB := nat; SqlDB := nat;
     lib_MapToLower := fun s => s;
     lib_Stat := Stat;
     lib_RegisterDriver := RegisterDriver;
     lib_sqlOpen := sqlOpen;
     lib_gormOpen := gormOpen;
     lib_DB := DB;
     lib_SetMaxOpenConns := SetMaxOpenConns;
     lib_SetMaxIdleConns := SetMaxIdleConns |}.

Definition note (tag : string) (w : machine) : machine :=
  {| files := files w; drivers := drivers w; fresh := fresh w;
     maxOpen := maxOpen w; maxIdle := maxIdle w;
     journal := (journal w ++ [tag])%list |}.

(** Options of a caller: each writes its tag in the journal; [failing]
    then returns an error. *)
Definition passing (tag : string) : DBOption lib :=
  Some (fun _ w => (Return None, note tag w)).

Definition failing (tag : string) : DBOption lib :=
  Some (fun _ w => (Return (Some (errorString tag)), note tag w)).

Definition empty (fs : list string) : machine :=
  {| files := fs; drivers := []; fresh := 0; maxOpen := []; maxIdle := [];
     journal := [] |}.

(** The process at start: [db] is nil, nothing has been called. *)
Definition boot (fs : list string) : State lib :=
  Build_State (L := lib) None (empty fs) [].

End Double.

(* ================================================================= *)
(** ** The pool of database/sql

    The two setters the exported options call, as the Go standard library
    has them (database/sql, sql.go), on the two fields of [sql.DB] they
    write.  [maxOpen] zero or less means no limit; [maxIdleCount] zero means
    [defaultMaxIdleConns], a negative one means no idle connection.  The
    mutex and the closing of surplus idle connections are left out. *)

Module database_sql.

Record DB : Type := {
  maxOpen : Z;
  maxIdleCount : Z
}.

Definition defaultMaxIdleConns : Z := 2.

Definition maxIdleConnsLocked (db : DB) : Z :=
  let n := maxIdleCount db in
  if (n =? 0)%Z then defaultMaxIdleConns
  else if (n <? 0)%Z then 0%Z
  else n.

Definition SetMaxIdleConns (db : DB) (n : Z) : DB :=
  let db :=
    {| maxOpen := maxOpen db;
       maxIdleCount := if (0 <? n)%Z then n else (-1)%Z |} in
  if ((0 <? maxOpen db) && (maxOpen db <? maxIdleConnsLocked db))%Z
  then {| maxOpen := maxOpen db; maxIdleCount := maxOpen db |}
  else db.

Definition SetMaxOpenConns (db : DB) (n : Z) : DB :=
  let db :=
    {| maxOpen := if (n <? 0)%Z then 0%Z else n;
       maxIdleCount := maxIdleCount db |} in
  let syncMaxIdle :=
    ((0 <? maxOpen db) && (maxOpen db <? maxIdleConnsLocked db))%Z in
  if syncMaxIdle then SetMaxIdleConns db n else db.

(** [sql.Open] leaves both fields zero. *)
Definition fresh : DB := {| maxOpen := 0; maxIdleCount := 0 |}.

End database_sql.

(** A library with one pool that follows database/sql; every other call
    succeeds at once. *)
Module Pool.

Definition lib : Library :=
  {| World := database_sql.DB; GormDB := unit; SqlDB := unit;
     lib_MapToLower := fun s => s;
     lib_Stat := fun _ w => (Return None, w);
     lib_RegisterDriver := fun _ _ w => (Return None, w);
     lib_sqlOpen := fun _ _ w => (Return (Some tt, None), w);
     lib_gormOpen := fun _ _ w => (Return (Some tt, None), w);
     lib_DB := fun _ w => (Return (Some tt, None), w);
     lib_SetMaxOpenConns := fun _ n w => database_sql.SetMaxOpenConns w n;
     lib_SetMaxIdleConns := fun _ n w => database_sql.SetMaxIdleConns w n |}.

Definition boot : State lib :=
  Build_State (L := lib) None database_sql.fresh [].

End Pool.

(* ================================================================= *)
(** ** A process that calls [Connect] again and again *)

(** The state after the calls of [cs], one after the other, each with its
    driver name, connection string and options; the results are dropped (a
    caller that recovers from a panic of [Connect] goes on from the state at
    the panic). *)
Fixpoint Connects (L : Library)
    (cs : list (string * string * list (DBOption L))) (s : State L)
    : State L :=
  match cs with
  | [] => s
  | (driver, dsn, opts) :: rest =>
      Connects L rest (snd (Connect L driver dsn opts s))
  end.

(* ================================================================= *)
(** ** Lower-casing *)

Module strings_facts.
Import strings.

Lemma lowerByte_not_upper (c : ascii) : isUpper (lowerByte c) = false.
Proof.
  destruct c as [[] [] [] [] [] [] [] []]; reflexivity.
Qed.

Lemma lowerByte_ascii (c : ascii) :
  isASCIIbyte c = true -> isASCIIbyte (lowerByte c) = true.
Proof.
  destruct c as [[] [] [] [] [] [] [] []]; intro H;
    solve [reflexivity | discriminate H].
Qed.

Lemma lowerASCII_no_upper (s : string) : hasUpper (lowerASCII s) = false.
Proof.
  induction s as [|c r IH]; simpl.
  - reflexivity.
  - now rewrite lowerByte_not_upper, IH.
Qed.

Lemma lowerASCII_ascii (s : string) :
  isASCII s = true -> isASCII (lowerASCII s) = true.
Proof.
  induction s as [|c r IH]; simpl; intro H.
  - reflexivity.
  - apply andb_true_iff in H as [Hc Hr].
    now rewrite (lowerByte_ascii c Hc), (IH Hr).
Qed.

(** On ASCII strings [ToLower] does not look at the Unicode tables. *)
Lemma ToLower_ascii (f : string -> string) (s : string) :
  isASCII s = true -> ToLower f s = lowerASCII s.
Proof.
  unfold ToLower. intros ->.
  destruct (hasUpper s) eqn:Hu; [reflexivity|].
  induction s as [|c r IH]; simpl in *; [reflexivity|].
  apply orb_false_iff in Hu as [Hc Hr].
  unfold lowerByte. rewrite Hc. now rewrite <- IH.
Qed.

(** Lower-casing an ASCII string twice is lower-casing it once. *)
Lemma ToLower_idempotent_ascii (f : string -> string) (s : string) :
  isASCII s = true -> ToLower f (ToLower f s) = ToLower f s.
Proof.
  intro H. rewrite (ToLower_ascii f s H).
  unfold ToLower.
  now rewrite (lowerASCII_ascii s H), lowerASCII_no_upper.
Qed.

End strings_facts.

(* ================================================================= *)
(** ** Running [Connect] by cases *)

Ltac go_unfold :=
  unfold Connect, support_db_options, GetInstance, os_Stat,
    pgxv5_RegisterDriver, sql_Open, gorm_Open, gormDB_DB, extern, outside,
    get_db, set_db, bind, ret, panic in *.

Ltac go_simpl H := cbn beta iota zeta delta [db world calls fst snd] in H.

(** Split on the innermost call whose result decides the next step. *)
Ltac go_case H :=
  match type of H with
  | context [match ?x with _ => _ end] =>
      lazymatch x with
      | context [match _ with _ => _ end] => fail
      | _ => destruct x eqn:?
      end
  end.

Ltac go_split H := go_simpl H; repeat (go_case H; go_simpl H).

Ltac go_done H := try discriminate H; inversion H; subst; clear H.

(** The three arms of the switch, by the lower-cased name. *)
Lemma Connect_default (L : Library) (driver dsn : string)
    (opts : list (DBOption L)) (s : State L) :
  strings_ToLower L driver <> "cloudsql-postgres" ->
  strings_ToLower L driver <> "postgresql" ->
  strings_ToLower L driver <> "postgres" ->
  Connect L driver dsn opts s =
  (Return (Some (errors_New
                   ("unsupported database: " ++ strings_ToLower L driver))), s).
Proof.
  intros H1 H2 H3. unfold Connect.
  apply String.eqb_neq in H1, H2, H3.
  now rewrite H1, H2, H3.
Qed.

Lemma Connect_depends_on_lower (L : Library) (a b dsn : string)
    (opts : list (DBOption L)) :
  strings_ToLower L a = strings_ToLower L b ->
  Connect L a dsn opts = Connect L b dsn opts.
Proof.
  intro H. unfold Connect. now rewrite H.
Qed.

Lemma Connect_direct_arm (L : Library) (a b dsn : string)
    (opts : list (DBOption L)) :
  strings_ToLower L a = "postgresql" \/ strings_ToLower L a = "postgres" ->
  strings_ToLower L b = "postgresql" \/ strings_ToLower L b = "postgres" ->
  Connect L a dsn opts = Connect L b dsn opts.
Proof.
  intros [Ha|Ha] [Hb|Hb]; unfold Connect; rewrite Ha, Hb; reflexivity.
Qed.

(** The loop, against the words of the specification. *)
Lemma apply_opts_all (L : Library) (opts : list (DBOption L))
    (sdb : option (SqlDB L)) (w w1 : World L) :
  succeed_in_order opts sdb w = Some w1 ->
  apply_opts L opts sdb w = (Return None, w1).
Proof.
  revert w. induction opts as [|opt rest IH]; intros w H; simpl in *.
  - inversion H. reflexivity.
  - unfold bind. destruct (call L opt sdb w) as [[[e|]|v] w'];
      try discriminate H. now apply IH.
Qed.

Lemma apply_opts_first_failure (L : Library) (pre post : list (DBOption L))
    (b : DBOption L) (sdb : option (SqlDB L)) (w w1 w2 : World L) (e : error) :
  succeed_in_order pre sdb w = Some w1 ->
  call L b sdb w1 = (Return (Some e), w2) ->
  apply_opts L (pre ++ b :: post) sdb w =
  (Return (Some (fmt_Errorf_w "db opts failure: " e)), w2).
Proof.
  revert w. induction pre as [|opt rest IH]; intros w H Hb; simpl in *.
  - inversion H; subst. unfold bind. now rewrite Hb.
  - unfold bind. destruct (call L opt sdb w) as [[[e'|]|v] w'];
      try discriminate H. now apply IH.
Qed.

(* ================================================================= *)
(** ** The claims *)

(** C2.  A driver name whose lower-cased form is none of
    ["cloudsql-postgres"], ["postgresql"], ["postgres"] makes [Connect] return
    the error ["unsupported database: " + name], and the state of the
    process, the package variable [db] with it, is what it was: no library is
    called and nothing is written. *)
Theorem Connect_unsupported_driver (L : Library) (driver dsn : string)
    (opts : list (DBOption L)) (s : State L) :
  strings_ToLower L driver <> "cloudsql-postgres" ->
  strings_ToLower L driver <> "postgresql" ->
  strings_ToLower L driver <> "postgres" ->
  exists e,
    Connect L driver dsn opts s = (Return (Some e), s) /\
    Error e = "unsupported database: " ++ strings_ToLower L driver /\
    db (snd (Connect L driver dsn opts s)) = db s.
Proof.
  intros H1 H2 H3.
  exists (errors_New ("unsupported database: " ++ strings_ToLower L driver)).
  rewrite (Connect_default L driver dsn opts s H1 H2 H3).
  repeat split.
Qed.

Lemma Connect_unsupported_driver_witness :
  exists e,
    Connect Double.lib "MySQL" "host=db" [Double.passing "A"]
      (Build_State (L := Double.lib) (Some 7%nat) (Double.empty []) []) =
    (Return (Some e),
     Build_State (L := Double.lib) (Some 7%nat) (Double.empty []) []) /\
    Error e = "unsupported database: mysql".
Proof.
  destruct (Connect_unsupported_driver Double.lib "MySQL" "host=db"
              [Double.passing "A"]
              (Build_State (L := Double.lib) (Some 7%nat) (Double.empty []) []))
    as [e [H1 [H2 _]]]; try (vm_compute; discriminate).
  exists e. split; [exact H1 | exact H2].
Defined.

(** C5.  The driver name is matched without regard to case.  [Connect] on a
    name [s] is [Connect] on [strings.ToLower(s)], as a whole (same result,
    same state), wherever lower-casing [s] twice gives what lower-casing it
    once gives; that holds for every ASCII name ([ToLower_idempotent_ascii])
    and is how Go's Unicode lower-casing behaves.  Two ASCII names that differ
    in case only run the same; and "POSTGRES", "PostgreSQL" and "postgresql"
    run as "postgres" does. *)
Theorem Connect_driver_case_insensitive (L : Library) (dsn : string)
    (opts : list (DBOption L)) :
  (forall s,
      strings_ToLower L (strings_ToLower L s) = strings_ToLower L s ->
      Connect L s dsn opts = Connect L (strings_ToLower L s) dsn opts) /\
  (forall s, strings.isASCII s = true ->
      Connect L s dsn opts = Connect L (strings_ToLower L s) dsn opts) /\
  (forall s t,
      strings.isASCII s = true -> strings.isASCII t = true ->
      strings.lowerASCII s = strings.lowerASCII t ->
      Connect L s dsn opts = Connect L t dsn opts) /\
  Connect L "POSTGRES" dsn opts = Connect L "postgres" dsn opts /\
  Connect L "PostgreSQL" dsn opts = Connect L "postgres" dsn opts /\
  Connect L "postgresql" dsn opts = Connect L "postgres" dsn opts /\
  Connect L "CloudSQL-Postgres" dsn opts =
  Connect L "cloudsql-postgres" dsn opts.
Proof.
  refine (conj _ (conj _ (conj _ (conj _ (conj _ (conj _ _)))))).
  - intros s H. apply Connect_depends_on_lower. now rewrite H.
  - intros s H. apply Connect_depends_on_lower. symmetry.
    now apply strings_facts.ToLower_idempotent_ascii.
  - intros s t Hs Ht H. apply Connect_depends_on_lower.
    unfold strings_ToLower.
    now rewrite (strings_facts.ToLower_ascii _ s Hs),
      (strings_facts.ToLower_ascii _ t Ht).
  - apply Connect_depends_on_lower. reflexivity.
  - apply Connect_direct_arm; [left | right]; reflexivity.
  - apply Connect_direct_arm; [left | right]; reflexivity.
  - apply Connect_depends_on_lower. reflexivity.
Qed.

Lemma Connect_driver_case_insensitive_witness :
  Connect Double.lib "PoStGrEs" "host=db" [Double.failing "B"] =
  Connect Double.lib "postgres" "host=db" [Double.failing "B"].
Proof.
  apply (proj1 (Connect_driver_case_insensitive Double.lib "host=db"
                  [Double.failing "B"]) "PoStGrEs").
  reflexivity.
Defined.

(** C7.  Whenever [Connect] returns nil, the driver name was one of the
    supported ones, the package variable holds a non-nil handle, and
    [GetInstance] called next returns that handle without a panic. *)
Theorem GetInstance_after_Connect (L : Library) (driver dsn : string)
    (opts : list (DBOption L)) (s s' : State L) :
  Connect L driver dsn opts s = (Return None, s') ->
  (strings_ToLower L driver = "cloudsql-postgres" \/
   strings_ToLower L driver = "postgresql" \/
   strings_ToLower L driver = "postgres") /\
  exists h,
    db s' = Some h /\ GetInstance L s' = (Return (Some h), s').
Proof.
  intro H. go_unfold. go_split H; go_done H.
  all: repeat match goal with
         | E : (_ =? _) = true |- _ => apply String.eqb_eq in E
         | E : (_ || _) = true |- _ => apply orb_true_iff in E as [E|E]
         end.
  all: split; [tauto | eexists; split; reflexivity].
Qed.

Lemma GetInstance_after_Connect_witness :
  exists h,
    GetInstance Double.lib
      (snd (Connect Double.lib "Postgres" "host=db"
              [WithMaxConnections Double.lib 5] (Double.boot []))) =
    (Return (Some h),
     snd (Connect Double.lib "Postgres" "host=db"
            [WithMaxConnections Double.lib 5] (Double.boot []))).
Proof.
  destruct (GetInstance_after_Connect Double.lib "Postgres" "host=db"
              [WithMaxConnections Double.lib 5] (Double.boot [])
              (snd (Connect Double.lib "Postgres" "host=db"
                      [WithMaxConnections Double.lib 5] (Double.boot []))))
    as [_ [h [_ Hg]]]; [reflexivity|].
  exists h. exact Hg.
Defined.

(** Split on the comparisons of integers, innermost first. *)
Ltac z_cases :=
  repeat (cbn [database_sql.maxOpen database_sql.maxIdleCount andb];
          match goal with
          | |- context [(?a <? ?b)%Z] =>
              lazymatch a with context [if _ then _ else _] => fail | _ =>
              lazymatch b with context [if _ then _ else _] => fail | _ =>
              destruct (Z.ltb_spec a b) end end
          | |- context [(?a <=? ?b)%Z] =>
              lazymatch a with context [if _ then _ else _] => fail | _ =>
              lazymatch b with context [if _ then _ else _] => fail | _ =>
              destruct (Z.leb_spec a b) end end
          | |- context [(?a =? ?b)%Z] =>
              lazymatch a with context [if _ then _ else _] => fail | _ =>
              lazymatch b with context [if _ then _ else _] => fail | _ =>
              destruct (Z.eqb_spec a b) end end
          end);
  cbn [database_sql.maxOpen database_sql.maxIdleCount andb].

(** C8, as the code has it.  For every integer [n] and every pool [d], the
    option [WithMaxConnections(n)] called on [d] makes the one call
    [d.SetMaxOpenConns(n)], with [n] as it is, and returns nil, and
    [WithMaxIdleConnections(n)] makes the one call [d.SetMaxIdleConns(n)]
    and returns nil; called on any pointer, nil included, neither returns a
    non-nil error.  What the pool then holds is for the setter to say.  With
    those of database/sql: the maximum of open connections is [n] when [n]
    is not negative and 0, no limit, when it is; the maximum of idle
    connections is [n] when [n] is positive and does not exceed a positive
    maximum of open connections, that maximum when it does, and 0 when [n]
    is not positive. *)
Theorem pool_options_call_setters (L : Library) (n : Z) (w : World L) :
  (forall d, call L (WithMaxConnections L n) (Some d) w =
             (Return None, lib_SetMaxOpenConns L d n w)) /\
  (forall d, call L (WithMaxIdleConnections L n) (Some d) w =
             (Return None, lib_SetMaxIdleConns L d n w)) /\
  (forall sdb e w', call L (WithMaxConnections L n) sdb w <>
                    (Return (Some e), w')) /\
  (forall sdb e w', call L (WithMaxIdleConnections L n) sdb w <>
                    (Return (Some e), w')) /\
  (forall p : database_sql.DB,
      fst (call Pool.lib (WithMaxConnections Pool.lib n) (Some tt) p) =
      Return None /\
      database_sql.maxOpen
        (snd (call Pool.lib (WithMaxConnections Pool.lib n) (Some tt) p)) =
      Z.max n 0) /\
  (forall p : database_sql.DB,
      fst (call Pool.lib (WithMaxIdleConnections Pool.lib n) (Some tt) p) =
      Return None /\
      database_sql.maxIdleConnsLocked
        (snd (call Pool.lib (WithMaxIdleConnections Pool.lib n) (Some tt) p)) =
      (if (n <=? 0)%Z then 0%Z
       else if ((0 <? database_sql.maxOpen p) &&
                (database_sql.maxOpen p <? n))%Z
            then database_sql.maxOpen p
            else n) /\
      database_sql.maxOpen
        (snd (call Pool.lib (WithMaxIdleConnections Pool.lib n) (Some tt) p)) =
      database_sql.maxOpen p).
Proof.
  split; [intro d; reflexivity|].
  split; [intro d; reflexivity|].
  split; [intros [d|] e w'; cbn; discriminate|].
  split; [intros [d|] e w'; cbn; discriminate|].
  split.
  - intros [mo mi]. split; [reflexivity|].
    cbn [call WithMaxConnections Pool.lib bind ret SetMaxOpenConns
           lib_SetMaxOpenConns snd].
    unfold database_sql.SetMaxOpenConns, database_sql.SetMaxIdleConns,
      database_sql.maxIdleConnsLocked, database_sql.defaultMaxIdleConns.
    z_cases; lia.
  - intros [mo mi]. split; [reflexivity|].
    cbn [call WithMaxIdleConnections Pool.lib bind ret SetMaxIdleConns
           lib_SetMaxIdleConns snd].
    unfold database_sql.SetMaxIdleConns,
      database_sql.maxIdleConnsLocked, database_sql.defaultMaxIdleConns.
    split; z_cases; lia.
Qed.

(** C8, as the claim has it, fails on a pool of database/sql.  After
    [WithMaxConnections(-3)] the maximum of open connections is 0, not -3;
    after [WithMaxIdleConnections(-3)] the pool keeps no idle connection
    (the field holds -1); after [WithMaxIdleConnections(10)] on a pool
    limited to 5 open connections the maximum of idle connections is 5. *)
Lemma pool_options_do_not_store_n :
  let p := database_sql.fresh in
  let p5 := snd (call Pool.lib (WithMaxConnections Pool.lib 5) (Some tt) p) in
  call Pool.lib (WithMaxConnections Pool.lib (-3)) (Some tt) p =
  (Return None, {| database_sql.maxOpen := 0;
                   database_sql.maxIdleCount := 0 |}) /\
  call Pool.lib (WithMaxIdleConnections Pool.lib (-3)) (Some tt) p =
  (Return None, {| database_sql.maxOpen := 0;
                   database_sql.maxIdleCount := -1 |}) /\
  database_sql.maxOpen p5 = 5%Z /\
  call Pool.lib (WithMaxIdleConnections Pool.lib 10) (Some tt) p5 =
  (Return None, {| database_sql.maxOpen := 5;
                   database_sql.maxIdleCount := 5 |}) /\
  database_sql.maxOpen
    (world (snd (Connect Pool.lib "postgres" "host=db"
                   [WithMaxConnections Pool.lib (-3)] Pool.boot))) <> (-3)%Z.
Proof.
  cbv zeta. repeat split. vm_compute. discriminate.
Qed.

(** The settings arrive in the pool of the test double. *)
Example pool_options_on_double :
  let s := snd (Connect Double.lib "postgres" "host=db"
                  [WithMaxConnections Double.lib 25;
                   WithMaxIdleConnections Double.lib (-3)] (Double.boot [])) in
  Double.maxOpen (world s) = [(0%nat, 25%Z)] /\
  Double.maxIdle (world s) = [(0%nat, (-3)%Z)].
Proof. split; reflexivity. Qed.

(* ================================================================= *)
(** ** What [Connect] leaves behind *)

Ltac go_rewrite :=
  repeat (cbn beta iota zeta delta [db world calls fst snd];
          match goal with
          | E : ?x = _ |- context [?x] => rewrite E
          end);
  cbn beta iota zeta delta [db world calls fst snd].

(** Membership in a list that is written out. *)
Ltac in_tac := cbn [app In]; repeat first [left; reflexivity | right].

(** The calls added to a record that is written out. *)
Ltac new_calls H :=
  repeat rewrite <- app_assoc in H; cbn [app] in H;
  first [ apply app_inv_head in H
        | rewrite <- app_nil_r in H at 1; apply app_inv_head in H ];
  subst.

(** An error out of the loop is the error of an option, wrapped. *)
Lemma apply_opts_error (L : Library) (opts : list (DBOption L))
    (sdb : option (SqlDB L)) (w w' : World L) (e : error) :
  apply_opts L opts sdb w = (Return (Some e), w') ->
  exists e0, e = fmt_Errorf_w "db opts failure: " e0.
Proof.
  revert w. induction opts as [|opt rest IH]; intros w H; simpl in H.
  - discriminate H.
  - unfold bind, ret in H.
    destruct (call L opt sdb w) as [[[e0|]|v] w0]; try discriminate H.
    + inversion H. now exists e0.
    + now apply (IH w0).
Qed.

(** When [Connect] without options returns nil, [Connect] with options is
    that run followed by the loop on the pool that [DB] returned. *)
Lemma Connect_then_options (L : Library) (driver dsn : string)
    (s s0 : State L) :
  Connect L driver dsn [] s = (Return None, s0) ->
  exists h sdb l,
    db s0 = Some h /\
    calls s0 = (l ++ [EvDB h (Return (sdb, None))])%list /\
    forall opts,
      Connect L driver dsn opts s =
      (let (r, w) := apply_opts L opts sdb (world s0) in
       (r, Build_State (db s0) w (calls s0))).
Proof.
  intro H. go_unfold. go_split H; go_done H.
  all: match goal with
       | E : apply_opts _ [] _ _ = _ |- _ =>
           cbn in E; inversion E; subst; clear E
       end.
  all: do 3 eexists; split; [reflexivity | split; [reflexivity |]].
  all: intro opts; go_rewrite; reflexivity.
Qed.

(** In the arm "cloudsql-postgres", once [os.Stat] has returned, the record
    goes on with that call and the one registration, made with the options
    the result of [os.Stat] selects. *)
Lemma Connect_registration (L : Library) (driver dsn : string)
    (opts : list (DBOption L)) (s s' : State L) (r : outcome (option error))
    (staterr : option error) (w1 : World L) :
  strings_ToLower L driver = "cloudsql-postgres" ->
  lib_Stat L authFile (world s) = (Return staterr, w1) ->
  Connect L driver dsn opts s = (r, s') ->
  exists regres rest,
    calls s' =
    (calls s ++
     EvStat authFile (Return staterr)
     :: EvRegisterDriver "cloudsql-postgres"
          match staterr with
          | None => [WithIAMAuthN; WithCredentialsFile authFile]
          | Some _ => [WithIAMAuthN]
          end regres
     :: rest)%list /\
    forall n o x, ~ In (EvRegisterDriver n o x) rest.
Proof.
  intros Hd Hs H. go_unfold. rewrite Hd, String.eqb_refl in H.
  go_simpl H. rewrite Hs in H. go_split H; go_done H.
  all: eexists; eexists; split;
    [repeat rewrite <- app_assoc; cbn [app]; reflexivity |].
  all: intros n o x Hin; cbn [In] in Hin;
    repeat match goal with
      | D : _ \/ _ |- _ => destruct D as [D|D]; [discriminate D|]
      end; exact Hin.
Qed.

(** C1, as the code has it.  When [Connect] returns a non-nil error, it is
    one of six.  For the first three (unsupported driver, registration
    failure, low-level open failure) [gorm.Open] has not been called and the
    package variable [db] is what it was before the call.  For the other
    three (ORM open failure, failure to fetch the pool, failure of an
    option) [db] has been overwritten with what [gorm.Open] returned,
    non-nil in the last two cases, whatever it was before. *)
Theorem Connect_error_global (L : Library) (driver dsn : string)
    (opts : list (DBOption L)) (s s' : State L) (e : error) :
  Connect L driver dsn opts s = (Return (Some e), s') ->
  exists new,
    calls s' = (calls s ++ new)%list /\
    (((e = errors_New ("unsupported database: " ++ strings_ToLower L driver) \/
       (exists e0, e = fmt_Errorf_v "pgxv5.RegisterDriver(...): " e0) \/
       (exists e0, e = fmt_Errorf_v "sql.Open(...): " e0)) /\
      (forall d c r, ~ In (EvGormOpen d c r) new) /\
      db s' = db s)
     \/
     (exists d h err e0,
         In (EvGormOpen d cfg (Return (h, err))) new /\
         db s' = h /\
         ((err = Some e0 /\ e = fmt_Errorf_w "unable to open db: " e0) \/
          (err = None /\ h <> None /\
           (e = fmt_Errorf_w "unable to fetch *sql.DB from *gorm.DB: " e0 \/
            e = fmt_Errorf_w "db opts failure: " e0))))).
Proof.
  intro H. go_unfold. go_split H; go_done H.
  all: try match goal with
         | E : apply_opts _ _ _ _ = (Return (Some _), _) |- _ =>
             destruct (apply_opts_error _ _ _ _ _ _ E) as [? ->]
         end.
  all: eexists; split;
    [ first [ repeat rewrite <- app_assoc; cbn [app]; reflexivity
            | symmetry; apply app_nil_r ] | ].
  all: first
    [ left; split;
      [ first [ left; reflexivity
              | right; left; eexists; reflexivity
              | right; right; eexists; reflexivity ]
      | split; [ | reflexivity ];
        intros d c r Hin; cbn [app In] in Hin;
        repeat match goal with
          | D : _ \/ _ |- _ => destruct D as [D|D]; [discriminate D|]
          end; exact Hin ]
    | right; do 4 eexists; split; [ in_tac | split; [ reflexivity | ] ];
      first
        [ left; split; reflexivity
        | right; split; [ reflexivity | split; [ discriminate | ] ];
          first [ left; reflexivity | right; reflexivity ] ] ].
Qed.

Lemma Connect_error_global_witness :
  db (snd (Connect Double.lib "postgres" "host=db" [Double.failing "B"]
             (Double.boot []))) = Some 0%nat.
Proof.
  destruct (Connect_error_global Double.lib "postgres" "host=db"
              [Double.failing "B"] (Double.boot [])
              (snd (Connect Double.lib "postgres" "host=db"
                      [Double.failing "B"] (Double.boot [])))
              (fmt_Errorf_w "db opts failure: " (errorString "B")))
    as [new [Hc H]]; [reflexivity|].
  vm_compute in Hc. subst new.
  destruct H as [[_ [Hno _]] | [d [h [err [e0 [Hin [Hdb _]]]]]]].
  - exfalso. apply (Hno (postgres_Open "host=db") cfg
                      (Return (Some 0%nat, None))).
    left. reflexivity.
  - destruct Hin as [Hin|[Hin|[]]]; [|discriminate Hin].
    rewrite Hdb. now inversion Hin.
Defined.

(** C1, as the claim has it, fails.  The process starts with [db] nil;
    [Connect("postgres", dsn, B)] with an option [B] that returns an error
    returns that error, and [db] now holds the handle just opened:
    [GetInstance] hands it out. *)
Lemma Connect_failure_changes_global :
  let s := Double.boot [] in
  let r := Connect Double.lib "postgres" "host=db" [Double.failing "B"] s in
  db s = None /\
  fst r = Return (Some (fmt_Errorf_w "db opts failure: " (errorString "B"))) /\
  db (snd r) = Some 0%nat /\
  db (snd r) <> db s /\
  GetInstance Double.lib (snd r) = (Return (Some 0%nat), snd r).
Proof.
  cbv zeta. repeat split; try reflexivity. vm_compute. discriminate.
Qed.

(** The same with a failing open: the test double, like gorm when the
    dialector cannot initialise, returns a handle next to the error, and
    [Connect] has stored it. *)
Example Connect_open_failure_on_double :
  let r := Connect Double.lib "postgresql" "" [] (Double.boot []) in
  fst r = Return (Some (fmt_Errorf_w "unable to open db: "
                          (errorString "failed to connect"))) /\
  db (snd r) = Some 0%nat.
Proof. split; reflexivity. Qed.

(** Every run of [Connect] adds to the record of calls. *)
Lemma Connect_calls_extend (L : Library) (driver dsn : string)
    (opts : list (DBOption L)) (s : State L) :
  exists new,
    calls (snd (Connect L driver dsn opts s)) = (calls s ++ new)%list.
Proof.
  destruct (Connect L driver dsn opts s) as [r s'] eqn:H. cbn [snd].
  go_unfold. go_split H; go_done H.
  all: eexists; cbn [calls];
    first [ repeat rewrite <- app_assoc; cbn [app]; reflexivity
          | symmetry; apply app_nil_r ].
Qed.

Lemma Connects_calls_extend (L : Library)
    (cs : list (string * string * list (DBOption L))) (s : State L) :
  exists new, calls (Connects L cs s) = (calls s ++ new)%list.
Proof.
  revert s. induction cs as [|[[driver dsn] opts] rest IH]; intro s.
  - exists []. symmetry. apply app_nil_r.
  - cbn [Connects].
    destruct (Connect_calls_extend L driver dsn opts s) as [n1 H1].
    destruct (IH (snd (Connect L driver dsn opts s))) as [n2 H2].
    exists (n1 ++ n2)%list. now rewrite H2, H1, app_assoc.
Qed.

(** A [Connect] during which [gorm.Open] returned no handle leaves a nil
    [db] nil. *)
Lemma Connect_keeps_nil (L : Library) (driver dsn : string)
    (opts : list (DBOption L)) (s s' : State L) (r : outcome (option error))
    (new : list (Event L)) :
  db s = None ->
  Connect L driver dsn opts s = (r, s') ->
  calls s' = (calls s ++ new)%list ->
  (forall d c h err, ~ In (EvGormOpen d c (Return (Some h, err))) new) ->
  db s' = None.
Proof.
  intros Hdb H Hc Hno. go_unfold. go_split H; go_done H.
  all: cbn [calls] in Hc; new_calls Hc.
  all: cbn [db]; try first [exact Hdb | reflexivity].
  all: try match goal with
         | |- ?o = None => is_var o; destruct o; [|reflexivity]
         end.
  all: exfalso; eapply Hno; solve [in_tac].
Qed.

(** C4, as the code has it.  [GetInstance] panics with "database accessed
    before initialized", returning neither a handle nor an error, exactly in
    the states where the package variable [db] is nil; with a handle in [db]
    it returns that handle.  [db] is nil when the process starts and is
    still nil after any number of [Connect] calls during which [gorm.Open]
    never returned a handle: [GetInstance] panics then.  (A [Connect] that
    failed after [gorm.Open] returned a handle has left it in [db].) *)
Theorem GetInstance_panics_while_nil (L : Library)
    (cs : list (string * string * list (DBOption L))) (s : State L)
    (new : list (Event L)) :
  db s = None ->
  calls (Connects L cs s) = (calls s ++ new)%list ->
  (forall d c h err, ~ In (EvGormOpen d c (Return (Some h, err))) new) ->
  GetInstance L (Connects L cs s) =
  (Panicked "database accessed before initialized", Connects L cs s) /\
  (forall s0 : State L,
      (db s0 = None ->
       GetInstance L s0 =
       (Panicked "database accessed before initialized", s0)) /\
      (forall h, db s0 = Some h ->
                 GetInstance L s0 = (Return (Some h), s0))).
Proof.
  intros Hdb Hc Hno.
  assert (Hget : forall s0 : State L,
             (db s0 = None ->
              GetInstance L s0 =
              (Panicked "database accessed before initialized", s0)) /\
             (forall h, db s0 = Some h ->
                        GetInstance L s0 = (Return (Some h), s0))).
  { intro s0. unfold GetInstance, get_db, bind, panic, ret. cbn.
    split; [intros -> | intros h ->]; reflexivity. }
  split; [|exact Hget]. apply Hget.
  revert s new Hdb Hc Hno.
  induction cs as [|[[driver dsn] opts] rest IH]; intros s new Hdb Hc Hno.
  - exact Hdb.
  - cbn [Connects] in *.
    destruct (Connect_calls_extend L driver dsn opts s) as [n1 H1].
    destruct (Connects_calls_extend L rest
                (snd (Connect L driver dsn opts s))) as [n2 H2].
    assert (Hnew : new = (n1 ++ n2)%list).
    { rewrite H2, H1, <- app_assoc in Hc. now apply app_inv_head in Hc. }
    subst new.
    apply (IH (snd (Connect L driver dsn opts s)) n2).
    + apply (Connect_keeps_nil L driver dsn opts s _
               (fst (Connect L driver dsn opts s)) n1 Hdb).
      * now destruct (Connect L driver dsn opts s).
      * exact H1.
      * intros d c h err Hin. apply (Hno d c h err).
        apply in_or_app. now left.
    + exact H2.
    + intros d c h err Hin. apply (Hno d c h err).
      apply in_or_app. now right.
Qed.

Lemma GetInstance_panics_while_nil_witness :
  let s := Connects Double.lib
             [("MySQL", "host=db", [Double.passing "A"]);
              ("sqlite", "file.db", [])] (Double.boot []) in
  GetInstance Double.lib s =
  (Panicked "database accessed before initialized", s).
Proof.
  cbv zeta.
  destruct (GetInstance_panics_while_nil Double.lib
              [("MySQL", "host=db", [Double.passing "A"]);
               ("sqlite", "file.db", [])] (Double.boot []) [])
    as [Hpanic _];
    [reflexivity | reflexivity | intros d c h err [] | exact Hpanic].
Defined.

(** C4, as the claim has it, fails.  No [Connect] has succeeded: the only
    call made, from the start of the process, returned an error.  Yet
    [GetInstance] does not panic; it returns the handle that call left in
    [db]. *)
Lemma GetInstance_returns_after_failed_Connect :
  let r := Connect Double.lib "postgres" "host=db" [Double.failing "B"]
             (Double.boot []) in
  db (Double.boot []) = None /\
  fst r = Return (Some (fmt_Errorf_w "db opts failure: " (errorString "B"))) /\
  fst r <> Return None /\
  GetInstance Double.lib (snd r) = (Return (Some 0%nat), snd r) /\
  (forall v, fst (GetInstance Double.lib (snd r)) <> Panicked v).
Proof.
  cbv zeta. repeat split; try reflexivity; vm_compute; discriminate.
Qed.

(** C3.  Let the open have gone well: [Connect] without options returns nil
    and leaves the state [s0], whose last recorded call is [DB] returning the
    pool [sdb].  Then with options, (1) if all of them return nil, called in
    the order of the list, each on the world the one before left, [Connect]
    returns nil in the world the last one left; (2) if those of [pre] return
    nil and the next one, [b], returns the error [e], [Connect] returns [e]
    wrapped as "db opts failure: ...", in the world [b] left: whatever comes
    after [b] in the list has not been called. *)
Theorem Connect_options_in_order (L : Library) (driver dsn : string)
    (s s0 : State L) (l : list (Event L)) (h : GormDB L)
    (sdb : option (SqlDB L)) :
  Connect L driver dsn [] s = (Return None, s0) ->
  calls s0 = (l ++ [EvDB h (Return (sdb, None))])%list ->
  (forall opts w1,
      succeed_in_order opts sdb (world s0) = Some w1 ->
      Connect L driver dsn opts s =
      (Return None, Build_State (db s0) w1 (calls s0))) /\
  (forall pre b post w1 w2 e,
      succeed_in_order pre sdb (world s0) = Some w1 ->
      call L b sdb w1 = (Return (Some e), w2) ->
      Connect L driver dsn (pre ++ b :: post) s =
      (Return (Some (fmt_Errorf_w "db opts failure: " e)),
       Build_State (db s0) w2 (calls s0)) /\
      Unwrap (fmt_Errorf_w "db opts failure: " e) = Some e).
Proof.
  intros H Hc.
  destruct (Connect_then_options L driver dsn s s0 H)
    as [h' [sdb' [l' [_ [Hc' Hopts]]]]].
  rewrite Hc in Hc'. apply app_inj_tail in Hc' as [_ Hev].
  inversion Hev; subst sdb'. split.
  - intros opts w1 Hall. rewrite Hopts.
    now rewrite (apply_opts_all L opts sdb _ _ Hall).
  - intros pre b post w1 w2 e Hpre Hb. split; [|reflexivity].
    rewrite Hopts.
    now rewrite (apply_opts_first_failure L pre post b sdb _ _ _ e Hpre Hb).
Qed.

Lemma Connect_options_in_order_witness :
  let s0 := snd (Connect Double.lib "postgres" "host=db" [] (Double.boot [])) in
  Connect Double.lib "postgres" "host=db"
    [Double.passing "A"; Double.failing "B"; Double.passing "C"]
    (Double.boot []) =
  (Return (Some (fmt_Errorf_w "db opts failure: " (errorString "B"))),
   Build_State (db s0) (Double.note "B" (Double.note "A" (world s0)))
     (calls s0)) /\
  Double.journal (Double.note "B" (Double.note "A" (world s0))) = ["A"; "B"].
Proof.
  cbv zeta. split; [|reflexivity].
  destruct (Connect_options_in_order Double.lib "postgres" "host=db"
              (Double.boot [])
              (snd (Connect Double.lib "postgres" "host=db" []
                      (Double.boot [])))
              [EvGormOpen (L := Double.lib) (postgres_Open "host=db") cfg
                 (Return (Some 0%nat, None))]
              0%nat (Some 0%nat)) as [_ Hfail]; [reflexivity | reflexivity |].
  destruct (Hfail [Double.passing "A"] (Double.failing "B")
              [Double.passing "C"]
              (Double.note "A" (Double.allocate (Double.empty [])))
              (Double.note "B"
                 (Double.note "A" (Double.allocate (Double.empty []))))
              (errorString "B")) as [Hrun _]; [reflexivity | reflexivity |].
  exact Hrun.
Defined.



(** C9.  [Connect] does not look at the package variable before it writes
    it.  In a state where [db] already holds a handle [old], if the call
    gets as far as [gorm.Open] returning, [db] is afterwards what [gorm.Open]
    returned; and the same call, started with anything else in [db] (nil
    too), ends with the same result in the same state.  No call on [old] is
    made: [Connect] calls nothing but what [Event] lists. *)
Theorem Connect_overwrites_global (L : Library) (driver dsn : string)
    (opts : list (DBOption L)) (s s' : State L) (r : outcome (option error))
    (old : GormDB L) (new : list (Event L)) (d : Dialector (SqlDB L))
    (c : gorm_Config) (h : option (GormDB L)) (err : option error) :
  db s = Some old ->
  Connect L driver dsn opts s = (r, s') ->
  calls s' = (calls s ++ new)%list ->
  In (EvGormOpen d c (Return (h, err))) new ->
  db s' = h /\
  forall x,
    Connect L driver dsn opts (Build_State x (world s) (calls s)) = (r, s').
Proof.
  intros _ H Hc Hin. go_unfold. go_split H; go_done H.
  all: cbn [calls] in Hc; new_calls Hc; cbn [In] in Hin.
  all: repeat match goal with
         | D : _ \/ _ |- _ => destruct D as [D|D]; try discriminate D
         | D : False |- _ => destruct D
         end.
  all: match goal with
       | D : EvGormOpen _ _ _ = EvGormOpen _ _ _ |- _ =>
           inversion D; subst; clear D
       end.
  all: split; [reflexivity | intro x; go_rewrite; reflexivity].
Qed.

Lemma Connect_overwrites_global_witness :
  let s1 := snd (Connect Double.lib "postgres" "host=a" [] (Double.boot [])) in
  let s2 := snd (Connect Double.lib "postgresql" "host=b" [] s1) in
  db s1 = Some 0%nat /\ db s2 = Some 1%nat.
Proof.
  cbv zeta. split; [reflexivity|].
  apply (Connect_overwrites_global Double.lib "postgresql" "host=b" []
           (snd (Connect Double.lib "postgres" "host=a" [] (Double.boot [])))
           (snd (Connect Double.lib "postgresql" "host=b" []
                   (snd (Connect Double.lib "postgres" "host=a" []
                           (Double.boot [])))))
           (Return None) 0%nat
           [EvGormOpen (L := Double.lib) (postgres_Open "host=b") cfg
              (Return (Some 1%nat, None));
            EvDB (L := Double.lib) 1%nat (Return (Some 1%nat, None))]
           (postgres_Open "host=b") cfg (Some 1%nat) None);
    [reflexivity | reflexivity | reflexivity | left; reflexivity].
Defined.

(** C10.  In the arm "cloudsql-postgres" the options of the registration
    call always hold [WithIAMAuthN]: they are [WithIAMAuthN] alone when
    [os.Stat] returned an error, and [WithIAMAuthN] followed by
    [WithCredentialsFile("/etc/sql/auth.json")] when it returned nil. *)
Theorem Connect_always_IAM (L : Library) (driver dsn : string)
    (opts : list (DBOption L)) (s s' : State L) (r : outcome (option error))
    (staterr : option error) (w1 : World L) :
  strings_ToLower L driver = "cloudsql-postgres" ->
  lib_Stat L "/etc/sql/auth.json" (world s) = (Return staterr, w1) ->
  Connect L driver dsn opts s = (r, s') ->
  exists authOption regres rest,
    calls s' =
    (calls s ++
     EvStat "/etc/sql/auth.json" (Return staterr)
     :: EvRegisterDriver "cloudsql-postgres" authOption regres
     :: rest)%list /\
    (forall n o x, ~ In (EvRegisterDriver n o x) rest) /\
    In WithIAMAuthN authOption /\
    (staterr = None ->
     authOption =
     [WithIAMAuthN; WithCredentialsFile "/etc/sql/auth.json"]) /\
    (staterr <> None -> authOption = [WithIAMAuthN]).
Proof.
  intros Hd Hs H.
  destruct (Connect_registration L driver dsn opts s s' r staterr w1 Hd Hs H)
    as [regres [rest [Hc Hrest]]].
  eexists; exists regres, rest. split; [exact Hc|]. split; [exact Hrest|].
  split; [destruct staterr; left; reflexivity|]. split.
  - intros ->. reflexivity.
  - intros Hne. destruct staterr as [e|]; [reflexivity | congruence].
Qed.

Lemma Connect_always_IAM_witness :
  exists authOption regres rest,
    calls (snd (Connect Double.lib "CLOUDSQL-POSTGRES" "host=db" []
                  (Double.boot []))) =
    EvStat "/etc/sql/auth.json"
      (Return (Some (errorString
                 "stat /etc/sql/auth.json: no such file or directory")))
    :: EvRegisterDriver "cloudsql-postgres" authOption regres :: rest /\
    authOption = [WithIAMAuthN].
Proof.
  destruct (Connect_always_IAM Double.lib "CLOUDSQL-POSTGRES" "host=db"
              [] (Double.boot [])
              (snd (Connect Double.lib "CLOUDSQL-POSTGRES" "host=db" []
                      (Double.boot [])))
              (Return None)
              (Some (errorString
                       "stat /etc/sql/auth.json: no such file or directory"))
              (Double.empty []))
    as [authOption [regres [rest [Hc [_ [_ [_ Hone]]]]]]];
    [reflexivity | reflexivity | reflexivity |].
  exists authOption, regres, rest. split; [exact Hc|].
  apply Hone. discriminate.
Defined.

(* ================================================================= *)
(** ** More on [Connect]: when options run, and panics *)

Ltac go_open H :=
  go_unfold; cbn [apply_opts] in H; unfold ret in H; go_split H; go_done H.

(** A panic out of the loop is the panic of an option, reached after the
    options before it returned nil. *)
Lemma apply_opts_panic (L : Library) (opts : list (DBOption L))
    (sdb : option (SqlDB L)) (w w' : World L) (v : string) :
  apply_opts L opts sdb w = (Panicked v, w') ->
  exists pre b post w1,
    opts = (pre ++ b :: post)%list /\
    succeed_in_order pre sdb w = Some w1 /\
    call L b sdb w1 = (Panicked v, w').
Proof.
  revert w. induction opts as [|opt rest IH]; intros w H; simpl in H.
  - discriminate H.
  - unfold bind, ret in H.
    destruct (call L opt sdb w) as [[[e0|]|v0] w0] eqn:Hc; try discriminate H.
    + destruct (IH w0 H) as [pre [b [post [w1 [-> [Hpre Hb]]]]]].
      exists (opt :: pre), b, post, w1. repeat split; [|exact Hb].
      simpl. now rewrite Hc.
    + inversion H; subst. exists [], opt, rest, w. repeat split. exact Hc.
Qed.

Lemma apply_opts_panics_at (L : Library) (pre post : list (DBOption L))
    (b : DBOption L) (sdb : option (SqlDB L)) (w w1 w2 : World L)
    (v : string) :
  succeed_in_order pre sdb w = Some w1 ->
  call L b sdb w1 = (Panicked v, w2) ->
  apply_opts L (pre ++ b :: post) sdb w = (Panicked v, w2).
Proof.
  revert w. induction pre as [|opt rest IH]; intros w H Hb; simpl in *.
  - inversion H; subst. unfold bind. now rewrite Hb.
  - unfold bind. destruct (call L opt sdb w) as [[[e'|]|v'] w'];
      try discriminate H. now apply IH.
Qed.

(** X1.  Options run only after the open has gone well.  If [Connect]
    without options ends in anything but nil (an error of the switch or of
    [DB], or a panic), then with any list of options it ends the same way in
    the same state: no option has been called. *)
Theorem Connect_options_need_open (L : Library) (driver dsn : string)
    (opts : list (DBOption L)) (s s' : State L) (r : outcome (option error)) :
  Connect L driver dsn [] s = (r, s') ->
  r <> Return None ->
  Connect L driver dsn opts s = (r, s').
Proof.
  intros H Hne. go_open H.
  all: try (exfalso; apply Hne; reflexivity).
  all: go_rewrite; reflexivity.
Qed.

Lemma Connect_options_need_open_witness :
  Connect Double.lib "postgres" "" [Double.passing "A"] (Double.boot []) =
  Connect Double.lib "postgres" "" [] (Double.boot []) /\
  Double.journal
    (world (snd (Connect Double.lib "postgres" "" [Double.passing "A"]
                   (Double.boot [])))) = [].
Proof.
  split; [|reflexivity].
  rewrite (Connect_options_need_open Double.lib "postgres" ""
             [Double.passing "A"] (Double.boot [])
             (snd (Connect Double.lib "postgres" "" [] (Double.boot [])))
             (fst (Connect Double.lib "postgres" "" [] (Double.boot []))));
    [reflexivity | reflexivity | vm_compute; discriminate].
Defined.

(** X2.  [Connect] recovers from nothing.  A library call that panics is the
    last call [Connect] makes, and [Connect] panics with the same value. *)
Theorem Connect_never_recovers (L : Library) (driver dsn : string)
    (opts : list (DBOption L)) (s s' : State L) (r : outcome (option error))
    (new : list (Event L)) (ev : Event L) (v : string) :
  Connect L driver dsn opts s = (r, s') ->
  calls s' = (calls s ++ new)%list ->
  In ev new ->
  panicked ev = Some v ->
  r = Panicked v /\ exists l, new = (l ++ [ev])%list.
Proof.
  intros H Hc Hin Hp. go_unfold. go_split H; go_done H.
  all: cbn [calls] in Hc; new_calls Hc; cbn [In] in Hin.
  all: repeat match goal with
         | D : _ \/ _ |- _ => destruct D as [D|D]
         | D : False |- _ => destruct D
         end.
  all: subst ev; cbn in Hp; try discriminate Hp.
  all: inversion Hp; subst; split; [reflexivity|].
  all: first [ exists []; reflexivity
             | eexists [_]; reflexivity
             | eexists [_; _]; reflexivity
             | eexists [_; _; _]; reflexivity
             | eexists [_; _; _; _]; reflexivity ].
Qed.

Lemma Connect_never_recovers_witness :
  let s1 := snd (Connect Double.lib "cloudsql-postgres" "host=a" []
                   (Double.boot [])) in
  fst (Connect Double.lib "cloudsql-postgres" "host=b" [] s1) =
  Panicked "sql: Register called twice for driver cloudsql-postgres".
Proof.
  cbv zeta.
  apply (Connect_never_recovers Double.lib "cloudsql-postgres" "host=b" []
           (snd (Connect Double.lib "cloudsql-postgres" "host=a" []
                   (Double.boot [])))
           (snd (Connect Double.lib "cloudsql-postgres" "host=b" []
                   (snd (Connect Double.lib "cloudsql-postgres" "host=a" []
                           (Double.boot [])))))
           (fst (Connect Double.lib "cloudsql-postgres" "host=b" []
                   (snd (Connect Double.lib "cloudsql-postgres" "host=a" []
                           (Double.boot [])))))
           [EvStat (L := Double.lib) "/etc/sql/auth.json"
              (Return (Some (errorString
                 "stat /etc/sql/auth.json: no such file or directory")));
            EvRegisterDriver (L := Double.lib) "cloudsql-postgres"
              [WithIAMAuthN]
              (Panicked
                 "sql: Register called twice for driver cloudsql-postgres")]
           (EvRegisterDriver (L := Double.lib) "cloudsql-postgres"
              [WithIAMAuthN]
              (Panicked
                 "sql: Register called twice for driver cloudsql-postgres"))
           "sql: Register called twice for driver cloudsql-postgres");
    [reflexivity | reflexivity | right; left; reflexivity | reflexivity].
Defined.

(** X3.  Why [Connect] can panic.  Either the last library call it made
    panicked with that value; or [gorm.Open] returned a nil handle together
    with a nil error, and the call of [DB] on it is a nil dereference, [db]
    being nil by then; or the open went well, [db] holds the new handle, and
    an option panicked after the options before it had returned nil. *)
Theorem Connect_panic_causes (L : Library) (driver dsn : string)
    (opts : list (DBOption L)) (s s' : State L) (v : string)
    (new : list (Event L)) :
  Connect L driver dsn opts s = (Panicked v, s') ->
  calls s' = (calls s ++ new)%list ->
  (exists l ev, new = (l ++ [ev])%list /\ panicked ev = Some v) \/
  (exists l d,
      new = (l ++ [EvGormOpen d cfg (Return (None, None))])%list /\
      v = nil_dereference /\ db s' = None) \/
  (exists l h sdb pre b post w0 w1,
      new = (l ++ [EvDB h (Return (sdb, None))])%list /\
      db s' = Some h /\
      opts = (pre ++ b :: post)%list /\
      succeed_in_order pre sdb w0 = Some w1 /\
      call L b sdb w1 = (Panicked v, world s')).
Proof.
  intros H Hc. go_unfold. go_split H; go_done H.
  all: cbn [calls] in Hc; new_calls Hc.
  all: try match goal with
         | E : apply_opts _ _ _ _ = (Panicked _, _) |- _ =>
             destruct (apply_opts_panic _ _ _ _ _ _ E)
               as [pre [b [post [wa [-> [Hpre Hb]]]]]];
             right; right;
             first [ eexists [_], _, _, pre, b, post, _, wa;
                     split; [reflexivity|]
                   | eexists [_; _; _; _], _, _, pre, b, post, _, wa;
                     split; [reflexivity|] ];
             split; [reflexivity|]; split; [reflexivity|];
             split; [exact Hpre | exact Hb]
         end.
  all: first
    [ left;
      first [ eexists [], _; split; reflexivity
            | eexists [_], _; split; reflexivity
            | eexists [_; _], _; split; reflexivity
            | eexists [_; _; _], _; split; reflexivity
            | eexists [_; _; _; _], _; split; reflexivity ]
    | right; left;
      first [ eexists [], _; split; [reflexivity | split; reflexivity]
            | eexists [_; _; _], _;
              split; [reflexivity | split; reflexivity] ] ].
Qed.

Lemma Connect_panic_causes_witness :
  exists l ev,
    calls (snd (Connect Double.lib "postgres" "host=db" [None]
                  (Double.boot []))) = (l ++ [ev])%list /\
    fst (Connect Double.lib "postgres" "host=db" [None] (Double.boot [])) =
    Panicked nil_dereference.
Proof.
  destruct (Connect_panic_causes Double.lib "postgres" "host=db" [None]
              (Double.boot [])
              (snd (Connect Double.lib "postgres" "host=db" [None]
                      (Double.boot [])))
              nil_dereference
              (calls (snd (Connect Double.lib "postgres" "host=db" [None]
                             (Double.boot [])))))
    as [[l [ev [Hl _]]] | [[l [d [Hl _]]] | [l [h [sdb [pre [b [post
          [w0 [w1 [Hl _]]]]]]]]]]];
    [reflexivity | reflexivity | | |].
  all: do 2 eexists; split; [exact Hl | reflexivity].
Defined.

(** X4.  An option that panics takes [Connect] with it.  After an open gone
    well, if the options of [pre] return nil and the next one, [b], panics
    with [v], then [Connect] panics with [v]; the options of [pre] have had
    their effect, the new handle stays in [db], and what follows [b] is not
    called.  A nil func value among the options is such a [b]: calling it
    is a nil dereference. *)
Theorem Connect_option_panics (L : Library) (driver dsn : string)
    (s s0 : State L) (l : list (Event L)) (h : GormDB L)
    (sdb : option (SqlDB L)) (pre post : list (DBOption L)) (w1 : World L) :
  Connect L driver dsn [] s = (Return None, s0) ->
  calls s0 = (l ++ [EvDB h (Return (sdb, None))])%list ->
  succeed_in_order pre sdb (world s0) = Some w1 ->
  (forall b v w2,
      call L b sdb w1 = (Panicked v, w2) ->
      Connect L driver dsn (pre ++ b :: post) s =
      (Panicked v, Build_State (db s0) w2 (calls s0))) /\
  Connect L driver dsn (pre ++ None :: post) s =
  (Panicked nil_dereference, Build_State (db s0) w1 (calls s0)).
Proof.
  intros H Hc Hpre.
  destruct (Connect_then_options L driver dsn s s0 H)
    as [h' [sdb' [l' [_ [Hc' Hopts]]]]].
  rewrite Hc in Hc'. apply app_inj_tail in Hc' as [_ Hev].
  inversion Hev; subst sdb'.
  assert (Hgen : forall b v w2,
             call L b sdb w1 = (Panicked v, w2) ->
             Connect L driver dsn (pre ++ b :: post) s =
             (Panicked v, Build_State (db s0) w2 (calls s0))).
  { intros b v w2 Hb. rewrite Hopts.
    now rewrite (apply_opts_panics_at L pre post b sdb _ _ _ v Hpre Hb). }
  split; [exact Hgen | apply Hgen; reflexivity].
Qed.

Lemma Connect_option_panics_witness :
  let r := Connect Double.lib "postgres" "host=db"
             [Double.passing "A"; None; Double.passing "C"] (Double.boot []) in
  fst r = Panicked nil_dereference /\
  db (snd r) = Some 0%nat /\
  Double.journal (world (snd r)) = ["A"].
Proof.
  cbv zeta.
  pose proof
          (proj2 (Connect_option_panics Double.lib "postgres" "host=db"
                    (Double.boot [])
                    (snd (Connect Double.lib "postgres" "host=db" []
                            (Double.boot [])))
                    [EvGormOpen (L := Double.lib) (postgres_Open "host=db")
                       cfg (Return (Some 0%nat, None))]
                    0%nat (Some 0%nat) [Double.passing "A"]
                    [Double.passing "C"]
                    (Double.note "A" (Double.allocate (Double.empty [])))
                    eq_refl eq_refl eq_refl)) as Hr.
  cbn [app] in Hr. rewrite Hr. repeat split.
Defined.

(* ================================================================= *)
(** ** More on [Connect]: the calls it makes *)

Ltac in_cases Hin :=
  cbn [In] in Hin;
  repeat match goal with
    | D : _ \/ _ |- _ => destruct D as [D|D]
    | D : False |- _ => destruct D
    end.

(** X5.  In the arm "postgresql"/"postgres" the first library call is
    [gorm.Open(postgres.Open(dsn), cfg)], with the connection string as the
    caller gave it; no file is looked for, no driver is registered and
    [sql.Open] is not called.  The only call that can follow is [DB], on the
    handle [gorm.Open] returned without error, which is then in [db]. *)
Theorem Connect_direct_calls (L : Library) (driver dsn : string)
    (opts : list (DBOption L)) (s s' : State L) (r : outcome (option error)) :
  strings_ToLower L driver = "postgresql" \/
  strings_ToLower L driver = "postgres" ->
  Connect L driver dsn opts s = (r, s') ->
  exists res rest,
    calls s' =
    (calls s ++ EvGormOpen (postgres_Open dsn) cfg res :: rest)%list /\
    (rest = [] \/
     exists h x,
       res = Return (Some h, None) /\ rest = [EvDB h x] /\ db s' = Some h).
Proof.
  intros Hd H.
  assert (E1 : ("postgresql" =? "cloudsql-postgres") = false) by reflexivity.
  assert (E2 : ("postgres" =? "cloudsql-postgres") = false) by reflexivity.
  unfold Connect in H.
  destruct Hd as [Hd|Hd]; rewrite Hd in H; rewrite ?E1, ?E2 in H;
    cbn [String.eqb Ascii.eqb Bool.eqb orb] in H.
  all: go_unfold; go_split H; go_done H.
  all: do 2 eexists;
    (split; [repeat rewrite <- app_assoc; cbn [app]; reflexivity |]).
  all: first [ left; reflexivity
             | right; do 2 eexists;
               split; [reflexivity | split; reflexivity] ].
Qed.

Lemma Connect_direct_calls_witness :
  exists res rest,
    calls (snd (Connect Double.lib "PostgreSQL" "host=db"
                  [Double.failing "B"]
                  (Double.boot ["/etc/sql/auth.json"]))) =
    EvGormOpen (postgres_Open "host=db") cfg res :: rest.
Proof.
  destruct (Connect_direct_calls Double.lib "PostgreSQL" "host=db"
              [Double.failing "B"] (Double.boot ["/etc/sql/auth.json"])
              (snd (Connect Double.lib "PostgreSQL" "host=db"
                      [Double.failing "B"]
                      (Double.boot ["/etc/sql/auth.json"])))
              (fst (Connect Double.lib "PostgreSQL" "host=db"
                      [Double.failing "B"]
                      (Double.boot ["/etc/sql/auth.json"]))))
    as [res [rest [Hc _]]]; [left; reflexivity | reflexivity |].
  exists res, rest. exact Hc.
Defined.

(** X6.  When [Connect] returns nil in the arm "cloudsql-postgres" it has
    made five library calls, all of which returned without error but
    possibly the first: [os.Stat]; the registration; [sql.Open] under the
    registered name "cloudsql-postgres", however the caller spelled it, with
    the connection string unchanged; [gorm.Open] on the pool [sql.Open]
    returned; [DB] on the handle [gorm.Open] returned, which is the handle
    now in [db]. *)
Theorem Connect_cloudsql_calls (L : Library) (driver dsn : string)
    (opts : list (DBOption L)) (s s' : State L) :
  strings_ToLower L driver = "cloudsql-postgres" ->
  Connect L driver dsn opts s = (Return None, s') ->
  exists staterr o sdb h pool,
    calls s' =
    (calls s ++
     [EvStat "/etc/sql/auth.json" (Return staterr);
      EvRegisterDriver "cloudsql-postgres" o (Return None);
      EvSqlOpen "cloudsql-postgres" dsn (Return (sdb, None));
      EvGormOpen (postgres_New sdb) cfg (Return (Some h, None));
      EvDB h (Return (pool, None))])%list /\
    db s' = Some h.
Proof.
  intros Hd H. go_unfold. rewrite Hd, String.eqb_refl in H.
  go_split H; go_done H.
  all: do 5 eexists;
    (split; [repeat rewrite <- app_assoc; cbn [app]; reflexivity
            | reflexivity]).
Qed.

Lemma Connect_cloudsql_calls_witness :
  exists staterr o sdb h pool,
    calls (snd (Connect Double.lib "CloudSQL-Postgres" "host=db" []
                  (Double.boot []))) =
    [EvStat "/etc/sql/auth.json" (Return staterr);
     EvRegisterDriver "cloudsql-postgres" o (Return None);
     EvSqlOpen "cloudsql-postgres" "host=db" (Return (sdb, None));
     EvGormOpen (postgres_New sdb) cfg (Return (Some h, None));
     EvDB h (Return (pool, None))].
Proof.
  destruct (Connect_cloudsql_calls Double.lib "CloudSQL-Postgres" "host=db"
              [] (Double.boot [])
              (snd (Connect Double.lib "CloudSQL-Postgres" "host=db" []
                      (Double.boot []))))
    as [staterr [o [sdb [h [pool [Hc _]]]]]]; [reflexivity | reflexivity |].
  exists staterr, o, sdb, h, pool. exact Hc.
Defined.

(** X9.  [Connect] calls each library at most once, and in the order of its
    body: [os.Stat], [RegisterDriver], [sql.Open], [gorm.Open], [DB].  So it
    opens at most one connection and makes at most five library calls,
    whatever the outcome. *)
Theorem Connect_calls_in_order (L : Library) (driver dsn : string)
    (opts : list (DBOption L)) (s s' : State L) (r : outcome (option error))
    (new : list (Event L)) :
  Connect L driver dsn opts s = (r, s') ->
  calls s' = (calls s ++ new)%list ->
  StronglySorted lt (map position new) /\ List.length new <= 5.
Proof.
  intros H Hc. go_unfold. go_split H; go_done H.
  all: cbn [calls] in Hc; new_calls Hc.
  all: cbn [map position List.length]; split; [|lia].
  all: repeat (constructor; cbn [map position]); lia.
Qed.

Lemma Connect_calls_in_order_witness :
  List.length
    (calls (snd (Connect Double.lib "cloudsql-postgres" "host=db"
                   [Double.passing "A"] (Double.boot [])))) <= 5.
Proof.
  apply (Connect_calls_in_order Double.lib "cloudsql-postgres" "host=db"
           [Double.passing "A"] (Double.boot [])
           (snd (Connect Double.lib "cloudsql-postgres" "host=db"
                   [Double.passing "A"] (Double.boot [])))
           (fst (Connect Double.lib "cloudsql-postgres" "host=db"
                   [Double.passing "A"] (Double.boot [])))
           (calls (snd (Connect Double.lib "cloudsql-postgres" "host=db"
                          [Double.passing "A"] (Double.boot [])))));
    reflexivity.
Defined.

(* ================================================================= *)
(** ** More on [Connect]: the exported options, errors, the handle *)

Lemma succeed_in_order_settings (L : Library) (d : SqlDB L)
    (ps : list PoolSetting) (w : World L) :
  succeed_in_order (map (option_of L) ps) (Some d) w =
  Some (fold_left (set_pool L d) ps w).
Proof.
  revert w. induction ps as [|p ps IH]; intro w; [reflexivity|].
  destruct p; cbn; apply IH.
Qed.

(** X7.  The exported options never stop [Connect].  After an open gone well
    whose pool [d] is not nil, [Connect] with any list made of
    [WithMaxConnections(n)] and [WithMaxIdleConnections(n)] returns nil, and
    the world is the one reached by making the setter calls on [d] one
    after the other in the order of the list (a setting given twice is set
    twice, the later call last).  On a nil pool the first of them is a nil
    dereference: [Connect] panics, the handle already in [db]. *)
Theorem Connect_pool_settings (L : Library) (driver dsn : string)
    (s s0 : State L) (l : list (Event L)) (h : GormDB L)
    (sdb : option (SqlDB L)) (ps : list PoolSetting) :
  Connect L driver dsn [] s = (Return None, s0) ->
  calls s0 = (l ++ [EvDB h (Return (sdb, None))])%list ->
  match sdb with
  | Some d =>
      Connect L driver dsn (map (option_of L) ps) s =
      (Return None,
       Build_State (db s0) (fold_left (set_pool L d) ps (world s0))
         (calls s0))
  | None =>
      ps <> [] ->
      Connect L driver dsn (map (option_of L) ps) s =
      (Panicked nil_dereference, s0)
  end.
Proof.
  intros H Hc.
  destruct (Connect_then_options L driver dsn s s0 H)
    as [h' [sdb' [l' [_ [Hc' Hopts]]]]].
  rewrite Hc in Hc'. apply app_inj_tail in Hc' as [_ Hev].
  inversion Hev; subst sdb'.
  destruct sdb as [d|].
  - rewrite Hopts.
    now rewrite (apply_opts_all L _ _ _ _
                   (succeed_in_order_settings L d ps (world s0))).
  - intro Hne. rewrite Hopts. destruct ps as [|p ps]; [congruence|].
    destruct s0; destruct p; reflexivity.
Qed.

Lemma Connect_pool_settings_witness :
  let r := Connect Double.lib "postgres" "host=db"
             [WithMaxConnections Double.lib 10;
              WithMaxIdleConnections Double.lib 2;
              WithMaxConnections Double.lib 20] (Double.boot []) in
  fst r = Return None /\
  Double.maxOpen (world (snd r)) = [(0%nat, 20%Z); (0%nat, 10%Z)] /\
  Double.maxIdle (world (snd r)) = [(0%nat, 2%Z)].
Proof.
  cbv zeta.
  pose proof (Connect_pool_settings Double.lib "postgres" "host=db"
                (Double.boot [])
                (snd (Connect Double.lib "postgres" "host=db" []
                        (Double.boot [])))
                [EvGormOpen (L := Double.lib) (postgres_Open "host=db")
                   cfg (Return (Some 0%nat, None))]
                0%nat (Some 0%nat) [MaxOpen 10; MaxIdle 2; MaxOpen 20]
                eq_refl eq_refl) as Hr.
  cbn [map option_of] in Hr. rewrite Hr. repeat split.
Defined.

(** The error out of the loop, with the option it came from. *)
Lemma apply_opts_error_at (L : Library) (opts : list (DBOption L))
    (sdb : option (SqlDB L)) (w w' : World L) (e : error) :
  apply_opts L opts sdb w = (Return (Some e), w') ->
  exists pre b post w1 e0,
    opts = (pre ++ b :: post)%list /\
    succeed_in_order pre sdb w = Some w1 /\
    call L b sdb w1 = (Return (Some e0), w') /\
    e = fmt_Errorf_w "db opts failure: " e0.
Proof.
  revert w. induction opts as [|opt rest IH]; intros w H; simpl in H.
  - discriminate H.
  - unfold bind, ret in H.
    destruct (call L opt sdb w) as [[[e0|]|v0] w0] eqn:Hc; try discriminate H.
    + inversion H; subst. exists [], opt, rest, w, e0. repeat split. exact Hc.
    + destruct (IH w0 H) as [pre [b [post [w1 [e0 [-> [Hpre [Hb ->]]]]]]]].
      exists (opt :: pre), b, post, w1, e0.
      split; [reflexivity|]. split; [|split; [exact Hb | reflexivity]].
      simpl. now rewrite Hc.
Qed.

(** X8.  What [errors.Unwrap] finds in the error [Connect] returns.  The
    unsupported-driver error wraps nothing.  A failure of [RegisterDriver]
    or of [sql.Open] is flattened with [%v]: its text is in the message, the
    error itself cannot be reached.  A failure of [gorm.Open], of [DB] or of
    an option is wrapped with [%w]: [Unwrap] gives that very error. *)
Theorem Connect_error_chain (L : Library) (driver dsn : string)
    (opts : list (DBOption L)) (s s' : State L) (e : error)
    (new : list (Event L)) :
  Connect L driver dsn opts s = (Return (Some e), s') ->
  calls s' = (calls s ++ new)%list ->
  (Unwrap e = None /\
   (new = [] \/
    (exists n o e0,
        In (EvRegisterDriver n o (Return (Some e0))) new /\
        Error e = "pgxv5.RegisterDriver(...): " ++ Error e0) \/
    (exists n d sdb e0,
        In (EvSqlOpen n d (Return (sdb, Some e0))) new /\
        Error e = "sql.Open(...): " ++ Error e0)))
  \/
  (exists e0,
      Unwrap e = Some e0 /\
      ((exists d h, In (EvGormOpen d cfg (Return (h, Some e0))) new) \/
       (exists h sdb, In (EvDB h (Return (sdb, Some e0))) new) \/
       (exists pre b post sdb w0 w1,
           opts = (pre ++ b :: post)%list /\
           succeed_in_order pre sdb w0 = Some w1 /\
           call L b sdb w1 = (Return (Some e0), world s')))).
Proof.
  intros H Hc. go_unfold. go_split H; go_done H.
  all: cbn [calls] in Hc; new_calls Hc.
  all: try match goal with
         | E : apply_opts _ _ _ _ = (Return (Some _), _) |- _ =>
             destruct (apply_opts_error_at _ _ _ _ _ _ E)
               as [pre [b [post [wa [ea [-> [Hpre [Hb ->]]]]]]]];
             right; exists ea; split; [reflexivity|]; right; right;
             exists pre, b, post; do 2 eexists; exists wa;
             split; [reflexivity | split; [exact Hpre | exact Hb]]
         end.
  all: first
    [ left; split; [reflexivity|];
      first [ left; reflexivity
            | right; left; do 3 eexists; split; [solve [in_tac] | reflexivity]
            | right; right; do 4 eexists; split; [solve [in_tac] | reflexivity] ]
    | right; eexists; split; [reflexivity|];
      first [ left; do 2 eexists; solve [in_tac]
            | right; left; do 2 eexists; solve [in_tac] ] ].
Qed.

Lemma Connect_error_chain_witness :
  exists e0,
    Unwrap (fmt_Errorf_w "unable to open db: "
              (errorString "failed to connect")) = Some e0 /\
    exists d h,
      In (EvGormOpen d cfg (Return (h, Some e0)))
        (calls (snd (Connect Double.lib "postgres" "" [] (Double.boot [])))).
Proof.
  destruct (Connect_error_chain Double.lib "postgres" "" [] (Double.boot [])
              (snd (Connect Double.lib "postgres" "" [] (Double.boot [])))
              (fmt_Errorf_w "unable to open db: "
                 (errorString "failed to connect"))
              (calls (snd (Connect Double.lib "postgres" "" []
                             (Double.boot [])))))
    as [[Hu _] | [e0 [Hu [Hg | [[h [sdb Hd]] | Ho]]]]];
    [reflexivity | reflexivity | | | |].
  - discriminate Hu.
  - exists e0. split; [exact Hu | exact Hg].
  - exfalso. vm_compute in Hd. destruct Hd as [Hd|[]]. discriminate Hd.
  - exfalso. destruct Ho as [pre [b [post [sdb [w0 [w1 [Ho _]]]]]]].
    exact (app_cons_not_nil pre post b Ho).
Defined.

(** X10.  The package variable is written in one place only.  In every run
    of [Connect], whether it returns nil, an error, or panics, if [gorm.Open]
    has not returned then [db] is what it was before the call. *)
Theorem Connect_db_untouched (L : Library) (driver dsn : string)
    (opts : list (DBOption L)) (s s' : State L) (r : outcome (option error))
    (new : list (Event L)) :
  Connect L driver dsn opts s = (r, s') ->
  calls s' = (calls s ++ new)%list ->
  (forall d c x, ~ In (EvGormOpen d c (Return x)) new) ->
  db s' = db s.
Proof.
  intros H Hc Hno. go_unfold. go_split H; go_done H.
  all: cbn [calls] in Hc; new_calls Hc.
  all: try reflexivity.
  all: exfalso; eapply Hno; solve [in_tac].
Qed.

Lemma Connect_db_untouched_witness :
  db (snd (Connect Double.lib "cloudsql-postgres" "host=b" []
             (snd (Connect Double.lib "cloudsql-postgres" "host=a" []
                     (Double.boot []))))) = Some 0%nat.
Proof.
  rewrite (Connect_db_untouched Double.lib "cloudsql-postgres" "host=b" []
             (snd (Connect Double.lib "cloudsql-postgres" "host=a" []
                     (Double.boot [])))
             (snd (Connect Double.lib "cloudsql-postgres" "host=b" []
                     (snd (Connect Double.lib "cloudsql-postgres" "host=a" []
                             (Double.boot [])))))
             (fst (Connect Double.lib "cloudsql-postgres" "host=b" []
                     (snd (Connect Double.lib "cloudsql-postgres" "host=a" []
                             (Double.boot [])))))
             [EvStat (L := Double.lib) "/etc/sql/auth.json"
                (Return (Some (errorString
                   "stat /etc/sql/auth.json: no such file or directory")));
              EvRegisterDriver (L := Double.lib) "cloudsql-postgres"
                [WithIAMAuthN]
                (Panicked
                   "sql: Register called twice for driver cloudsql-postgres")]).
  - reflexivity.
  - reflexivity.
  - reflexivity.
  - intros d c x [Hin|[Hin|[]]]; discriminate Hin.
Defined.

(** X11.  A second [Connect] that does not reach the end of [gorm.Open] (an
    unsupported name, a failed or panicking registration, a failed
    [sql.Open]) leaves the instance of the first in place: [GetInstance]
    still returns the handle [db] held before. *)
Theorem GetInstance_after_failed_reconnect (L : Library) (driver dsn : string)
    (opts : list (DBOption L)) (s s' : State L) (r : outcome (option error))
    (new : list (Event L)) (h : GormDB L) :
  db s = Some h ->
  Connect L driver dsn opts s = (r, s') ->
  calls s' = (calls s ++ new)%list ->
  (forall d c x, ~ In (EvGormOpen d c (Return x)) new) ->
  GetInstance L s' = (Return (Some h), s').
Proof.
  intros Hdb H Hc Hno. go_unfold. go_split H; go_done H.
  all: cbn [calls] in Hc; new_calls Hc.
  all: try (cbn [db]; rewrite Hdb; reflexivity).
  all: exfalso; eapply Hno; solve [in_tac].
Qed.

Lemma GetInstance_after_failed_reconnect_witness :
  let s1 := snd (Connect Double.lib "postgres" "host=a" [] (Double.boot [])) in
  let s2 := snd (Connect Double.lib "sqlite" "file.db" [] s1) in
  GetInstance Double.lib s2 = (Return (Some 0%nat), s2).
Proof.
  cbv zeta.
  apply (GetInstance_after_failed_reconnect Double.lib "sqlite" "file.db" []
           (snd (Connect Double.lib "postgres" "host=a" [] (Double.boot [])))
           (snd (Connect Double.lib "sqlite" "file.db" []
                   (snd (Connect Double.lib "postgres" "host=a" []
                           (Double.boot [])))))
           (fst (Connect Double.lib "sqlite" "file.db" []
                   (snd (Connect Double.lib "postgres" "host=a" []
                           (Double.boot [])))))
           [] 0%nat);
    [reflexivity | reflexivity | reflexivity | intros d c x []].
Defined.

(** X12.  What [Connect] hands to the libraries.  In every run: [os.Stat]
    is asked about "/etc/sql/auth.json" and no other path; a driver is
    registered under "cloudsql-postgres" and no other name, with
    [WithIAMAuthN] alone or followed by the credentials file; [sql.Open]
    gets that name and the connection string of the caller unchanged;
    [gorm.Open] gets the configuration of lines 33-41 and either
    [postgres.Open] of the caller's connection string or [postgres.New] of
    the pool [sql.Open] returned without error; [DB] is called on a handle
    that [gorm.Open] returned without error. *)
Theorem Connect_hands_over (L : Library) (driver dsn : string)
    (opts : list (DBOption L)) (s s' : State L) (r : outcome (option error))
    (new : list (Event L)) (ev : Event L) :
  Connect L driver dsn opts s = (r, s') ->
  calls s' = (calls s ++ new)%list ->
  In ev new ->
  hands_over dsn new ev.
Proof.
  intros H Hc Hin. go_unfold. go_split H; go_done H.
  all: repeat match goal with
         | E : (_ =? _) = true |- _ => apply String.eqb_eq in E; rewrite E in *
         end.
  all: cbn [calls] in Hc; new_calls Hc; in_cases Hin; subst ev.
  all: cbn [hands_over].
  all: first
    [ reflexivity
    | split; [reflexivity|]; first [ left; reflexivity | right; reflexivity ]
    | split; reflexivity
    | split; [reflexivity|]; right; eexists;
      split; [reflexivity | solve [in_tac]]
    | eexists; solve [in_tac] ].
Qed.

Lemma Connect_hands_over_witness :
  hands_over "host=db"
    (calls (snd (Connect Double.lib "CLOUDSQL-postgres" "host=db" []
                   (Double.boot ["/etc/sql/auth.json"]))))
    (EvSqlOpen (L := Double.lib) "cloudsql-postgres" "host=db"
       (Return (Some 0%nat, None))).
Proof.
  apply (Connect_hands_over Double.lib "CLOUDSQL-postgres" "host=db" []
           (Double.boot ["/etc/sql/auth.json"])
           (snd (Connect Double.lib "CLOUDSQL-postgres" "host=db" []
                   (Double.boot ["/etc/sql/auth.json"])))
           (fst (Connect Double.lib "CLOUDSQL-postgres" "host=db" []
                   (Double.boot ["/etc/sql/auth.json"]))));
    [reflexivity | reflexivity | right; right; left; reflexivity].
Defined.

Lemma apply_opts_nil (L : Library) (opts : list (DBOption L))
    (sdb : option (SqlDB L)) (w w' : World L) :
  apply_opts L opts sdb w = (Return None, w') ->
  succeed_in_order opts sdb w = Some w'.
Proof.
  revert w. induction opts as [|opt rest IH]; intros w H; simpl in *.
  - inversion H. reflexivity.
  - unfold bind, ret in H.
    destruct (call L opt sdb w) as [[[e0|]|v0] w0]; try discriminate H.
    now apply IH.
Qed.

(** X13.  The unsupported-driver error is returned for the unsupported names
    and for no other: when [Connect] returns an error, that error is
    ["unsupported database: ..."] made by [errors.New] exactly when the
    lower-cased name is none of the three the switch knows. *)
Theorem Connect_unsupported_exactly (L : Library) (driver dsn : string)
    (opts : list (DBOption L)) (s s' : State L) (e : error) :
  Connect L driver dsn opts s = (Return (Some e), s') ->
  (exists x, e = errors_New ("unsupported database: " ++ x)) <->
  (strings_ToLower L driver <> "cloudsql-postgres" /\
   strings_ToLower L driver <> "postgresql" /\
   strings_ToLower L driver <> "postgres").
Proof.
  intro H. split.
  - intros [x ->]. go_unfold. go_split H; go_done H.
    all: try match goal with
           | E : apply_opts _ _ _ _ = (Return (Some _), _) |- _ =>
               destruct (apply_opts_error _ _ _ _ _ _ E) as [? Hw];
               discriminate Hw
           end.
    apply String.eqb_neq in Heqb.
    apply orb_false_iff in Heqb0 as [H1 H2].
    apply String.eqb_neq in H1, H2. tauto.
  - intros [H1 [H2 H3]].
    rewrite (Connect_default L driver dsn opts s H1 H2 H3) in H.
    inversion H. eexists. reflexivity.
Qed.

Lemma Connect_unsupported_exactly_witness :
  ~ exists x,
      fmt_Errorf_w "unable to open db: " (errorString "failed to connect") =
      errors_New ("unsupported database: " ++ x).
Proof.
  intro Hx.
  apply (proj1 (Connect_unsupported_exactly Double.lib "postgres" "" []
                  (Double.boot [])
                  (snd (Connect Double.lib "postgres" "" [] (Double.boot [])))
                  (fmt_Errorf_w "unable to open db: "
                     (errorString "failed to connect")) eq_refl)) in Hx.
  destruct Hx as [_ [_ Hx]]. apply Hx. reflexivity.
Defined.

(** X14.  When [Connect] returns nil, nothing was skipped: the open went
    well, as it does without options, and every option of the list was
    called on the pool [DB] returned, in the order of the list, each
    returning nil; the world is the one the last option left, and [db] and
    the calls made are those of the open. *)
Theorem Connect_nil_all_options (L : Library) (driver dsn : string)
    (opts : list (DBOption L)) (s s' : State L) :
  Connect L driver dsn opts s = (Return None, s') ->
  exists s0 l h sdb,
    Connect L driver dsn [] s = (Return None, s0) /\
    calls s0 = (l ++ [EvDB h (Return (sdb, None))])%list /\
    succeed_in_order opts sdb (world s0) = Some (world s') /\
    db s' = db s0 /\ calls s' = calls s0.
Proof.
  intro H. go_unfold. go_split H; go_done H.
  all: match goal with
       | E : apply_opts _ _ _ _ = (Return None, _) |- _ =>
           apply apply_opts_nil in E
       end.
  all: do 4 eexists; split;
    [ go_rewrite; cbn [apply_opts]; unfold ret; reflexivity
    | split; [reflexivity | split; [eassumption | split; reflexivity]] ].
Qed.

Lemma Connect_nil_all_options_witness :
  exists s0 sdb,
    Connect Double.lib "postgres" "host=db" [] (Double.boot []) =
    (Return None, s0) /\
    succeed_in_order [Double.passing "A"; Double.passing "B"] sdb (world s0) =
    Some (world (snd (Connect Double.lib "postgres" "host=db"
                        [Double.passing "A"; Double.passing "B"]
                        (Double.boot [])))).
Proof.
  destruct (Connect_nil_all_options Double.lib "postgres" "host=db"
              [Double.passing "A"; Double.passing "B"] (Double.boot [])
              (snd (Connect Double.lib "postgres" "host=db"
                      [Double.passing "A"; Double.passing "B"]
                      (Double.boot []))))
    as [s0 [l [h [sdb [H0 [_ [Hs _]]]]]]]; [reflexivity|].
  exists s0, sdb. split; [exact H0 | exact Hs].
Defined.
